(** * Vault Shop: the order ledger and payment handlers of [WEB/app.py]

    A shallow embedding of the Flask routes [/create-order],
    [/cancel-order/<order_id>], [/submit-delivery], [/admin/add] and [/ipn],
    of [generate_order_id], [create_invoice], [validate_ipn] and of the
    [ProductForm] validators, followed by the properties of the order
    lifecycle.

    Conventions.
    - Python values read from a JSON body are terms of [json]; [None] is
      [JNull].
    - A [str] is held as the bytes of its UTF-8 encoding, so that a
      character outside ASCII is two to four bytes, all of them above 127;
      [bytes] are held as they are.
    - A handler is a computation over the [World] (committed storage, the
      messages Telegram accepted, the log, the flashed messages) that either
      returns a [Response] or raises a Python exception.
    - What lives outside the repository (HMAC-SHA512, the NOWPayments and
      Telegram endpoints, the storage engine's coercion of a parameter that
      is not of the column's type, the interpreter's table of decimal
      digits, the deployment's secrets) is a field of
      [Env]; every property holds for every [Env].
    - Statements run by the storage engine succeed: losing the connection
      or exhausting the pool is not modelled, nor is the driver's refusal
      of a text parameter with a NUL character in it. *)

From Stdlib Require Import List String Ascii ZArith QArith Bool Arith Lia.
From Stdlib Require Import DecimalString DecimalZ.
Import ListNotations.

Set Warnings "-register-all,-abstract-large-number".

#[local] Close Scope Q_scope.

#[local] Open Scope string_scope.
#[local] Open Scope list_scope.

(* ------------------------------------------------------------------ *)
(** ** Python values *)

Module Py.

(** A Python [float]: the finite ones by the rational they denote. *)
Inductive pyfloat : Type :=
| Fin (q : Q)
| PosInf
| NegInf
| NaN.

(** [bool(x)] of a float: only zero is false. *)
Definition float_truthy (x : pyfloat) : bool :=
  match x with
  | Fin q => negb (Qeq_bool q 0%Q)
  | _ => true
  end.

(** [x < 0] of a float; every comparison with NaN is false. *)
Definition float_negative (x : pyfloat) : bool :=
  match x with
  | Fin q => negb (Qle_bool 0%Q q)
  | NegInf => true
  | PosInf | NaN => false
  end.

Definition float_isnan (x : pyfloat) : bool :=
  match x with NaN => true | _ => false end.

(** The value [json.loads] builds. A dict is kept as an association list
    that is looked up from the front. *)
Inductive json : Type :=
| JNull
| JBool (b : bool)
| JInt (n : Z)
| JFloat (x : pyfloat)
| JStr (s : string)
| JArr (l : list json)
| JObj (d : list (string * json)).

Inductive exn : Type :=
| TypeError
| KeyError
| AttributeError
| BadRequest
| DatabaseError
| TelegramError
| RequestError.

Definition exn_name (e : exn) : string :=
  match e with
  | TypeError => "TypeError"
  | KeyError => "KeyError"
  | AttributeError => "AttributeError"
  | BadRequest => "BadRequest"
  | DatabaseError => "DatabaseError"
  | TelegramError => "TelegramError"
  | RequestError => "RequestError"
  end.

Inductive res (A : Type) : Type :=
| Ok (a : A)
| Raise (e : exn).
Arguments Ok {A} a.
Arguments Raise {A} e.

(** [bool(v)]. *)
Definition truthy (v : json) : bool :=
  match v with
  | JNull => false
  | JBool b => b
  | JInt n => negb (n =? 0)%Z
  | JFloat x => float_truthy x
  | JStr s => negb (s =? EmptyString)
  | JArr l => match l with [] => false | _ => true end
  | JObj d => match d with [] => false | _ => true end
  end.

Fixpoint assoc (k : string) (d : list (string * json)) : option json :=
  match d with
  | [] => None
  | (k', v) :: d' => if k' =? k then Some v else assoc k d'
  end.

(** [needle in hay] for two [str]: [needle] occurs as a substring. *)
Fixpoint occurs (needle hay : string) : bool :=
  prefix needle hay ||
  match hay with
  | EmptyString => false
  | String _ hay' => occurs needle hay'
  end.

Definition is_str (k : string) (v : json) : bool :=
  match v with JStr s => s =? k | _ => false end.

(** [k in v] for a [str] key [k]: a key of a dict, an element of a list, a
    substring of a string; the other types are not iterable. *)
Definition contains (k : string) (v : json) : res bool :=
  match v with
  | JObj d => Ok (match assoc k d with Some _ => true | None => false end)
  | JArr l => Ok (existsb (is_str k) l)
  | JStr s => Ok (occurs k s)
  | JNull | JBool _ | JInt _ | JFloat _ => Raise TypeError
  end.

(** [v[k]] for a [str] key [k]. *)
Definition subscript (v : json) (k : string) : res json :=
  match v with
  | JObj d => match assoc k d with Some x => Ok x | None => Raise KeyError end
  | _ => Raise TypeError
  end.

(** [v.get(k)]: only a dict has the method. *)
Definition get (v : json) (k : string) : res json :=
  match v with
  | JObj d => Ok (match assoc k d with Some x => x | None => JNull end)
  | _ => Raise AttributeError
  end.

(** [v == s] for a [str] literal [s]. *)
Definition eq_str (v : json) (s : string) : bool := is_str s v.

(** [str.replace(old, new)] for a non-empty [old]: [skip] counts the
    characters of a matched occurrence still to be dropped. *)
Fixpoint replace_from (old new : string) (skip : nat) (s : string) : string :=
  match s with
  | EmptyString => EmptyString
  | String c s' =>
      match skip with
      | S k => replace_from old new k s'
      | O =>
          if prefix old s
          then new ++ replace_from old new (String.length old - 1) s'
          else String c (replace_from old new 0 s')
      end
  end.

Definition replace (old new s : string) : string := replace_from old new 0 s.

(** The white space of [str.isspace] and [str.strip], by the length of its
    encoding. One byte: U+0009 to U+000D and U+001C to U+0020. *)
Definition is_space (c : ascii) : bool :=
  let n := nat_of_ascii c in
  (((9 <=? n) && (n <=? 13)) || ((28 <=? n) && (n <=? 32)))%nat.

(** Two bytes: U+0085 (C2 85) and U+00A0 (C2 A0). *)
Definition is_space2 (c1 c2 : ascii) : bool :=
  let b := nat_of_ascii c2 in
  ((nat_of_ascii c1 =? 194) && ((b =? 133) || (b =? 160)))%nat.

(** Three bytes: U+1680 (E1 9A 80), U+2000 to U+200A (E2 80 80 to E2 80 8A),
    U+2028, U+2029 and U+202F (E2 80 A8, A9, AF), U+205F (E2 81 9F) and
    U+3000 (E3 80 80). *)
Definition is_space3 (c1 c2 c3 : ascii) : bool :=
  let a := nat_of_ascii c1 in
  let b := nat_of_ascii c2 in
  let c := nat_of_ascii c3 in
  (((a =? 225) && (b =? 154) && (c =? 128))
   || ((a =? 226) && (b =? 128)
       && (((128 <=? c) && (c <=? 138)) || (c =? 168) || (c =? 169) || (c =? 175)))
   || ((a =? 226) && (b =? 129) && (c =? 159))
   || ((a =? 227) && (b =? 128) && (c =? 128)))%nat.

Fixpoint all_chars (p : ascii -> bool) (s : string) : bool :=
  match s with
  | EmptyString => true
  | String c s' => p c && all_chars p s'
  end.

(** [s.strip()] is the empty string: [s] is made of white space only. *)
Fixpoint blank (s : string) : bool :=
  match s with
  | EmptyString => true
  | String c1 s1 =>
      if is_space c1 then blank s1
      else
        match s1 with
        | String c2 s2 =>
            if is_space2 c1 c2 then blank s2
            else
              match s2 with
              | String c3 s3 => is_space3 c1 c2 c3 && blank s3
              | EmptyString => false
              end
        | EmptyString => false
        end
  end.

Definition is_ascii_char (c : ascii) : bool := (nat_of_ascii c <? 128)%nat.
Definition is_ascii (s : string) : bool := all_chars is_ascii_char s.

(** [hmac.compare_digest(a, b)] on [str] arguments: a [TypeError] unless
    both are [str] made of ASCII characters, their equality otherwise. *)
Definition compare_digest (a : option string) (b : string) : res bool :=
  match a with
  | None => Raise TypeError
  | Some a' =>
      if is_ascii a' && is_ascii b then Ok (a' =? b) else Raise TypeError
  end.

End Py.
Export Py.


(* ------------------------------------------------------------------ *)
(** ** Storage: the [products] and [orders] tables *)

(** The wall clock, as [datetime.datetime.now()] and [CURRENT_TIMESTAMP]
    report it. *)
Record datetime : Type := mkDatetime {
  year : nat; month : nat; day : nat;
  hour : nat; minute : nat; second : nat
}.

Module products.
Record row : Type := mk {
  id : Z;
  name : option string;
  price : option pyfloat;
  description : option string;
  image_url : option string
}.
End products.

Module orders.
Record row : Type := mk {
  product_id : Z;
  total_amount : option pyfloat;
  user_identifier : option string;
  order_id : string;
  payment_id : string;
  order_status : string;
  created_at : datetime;
  paid_at : option datetime
}.
End orders.

(** Modelled from the spec: the table declarations are not part of the
    source. An order row that is inserted without a status starts as
    [pending] (section 3, "pending -> paid", and section 8, where the status
    read back after [/create-order] is [pending]), carries its creation time
    and no payment time; a product row gets its identifier from storage. *)
Definition default_order_status : string := "pending".

Record Db : Type := mkDb {
  tbl_products : list products.row;
  tbl_orders : list orders.row;
  next_product_id : Z
}.

(** How a query parameter reaches a column: bound to a value of the column's
    type, comparable with no row (SQL NULL), or refused by the driver or the
    engine, which makes [cur.execute] raise. *)
Inductive sql_param (A : Type) : Type :=
| Bound (a : A)
| Unmatched
| Rejected.
Arguments Bound {A} a.
Arguments Unmatched {A}.
Arguments Rejected {A}.

Module Sql.

(** [SELECT price FROM products WHERE id = %s], then [fetchone()]: the
    one-column row of the first match. *)
Definition select_price (k : Z) (db : Db) : option (option pyfloat) :=
  option_map products.price
    (find (fun p => (products.id p =? k)%Z) (tbl_products db)).

(** [INSERT INTO orders (product_id, total_amount, order_id, payment_id)]
    and, with [uid], the same with [user_identifier]. *)
Definition insert_order (pid : Z) (amount : option pyfloat) (uid : option string)
    (oid pay : string) (now : datetime) (db : Db) : Db :=
  mkDb (tbl_products db)
       (tbl_orders db ++
          [orders.mk pid amount uid oid pay default_order_status now None])
       (next_product_id db).

Definition cancellable (oid : string) (o : orders.row) : bool :=
  (orders.order_id o =? oid) && (orders.order_status o =? "pending").

Definition set_status (s : string) (o : orders.row) : orders.row :=
  orders.mk (orders.product_id o) (orders.total_amount o)
            (orders.user_identifier o) (orders.order_id o)
            (orders.payment_id o) s (orders.created_at o) (orders.paid_at o).

Definition set_paid (now : datetime) (o : orders.row) : orders.row :=
  orders.mk (orders.product_id o) (orders.total_amount o)
            (orders.user_identifier o) (orders.order_id o)
            (orders.payment_id o) "paid" (orders.created_at o) (Some now).

Definition with_orders (db : Db) (os : list orders.row) : Db :=
  mkDb (tbl_products db) os (next_product_id db).

(** [UPDATE orders SET order_status = 'cancelled'
     WHERE order_id = %s AND order_status = 'pending'], with [rowcount]. *)
Definition update_cancelled (oid : string) (db : Db) : nat * Db :=
  (List.length (filter (cancellable oid) (tbl_orders db)),
   with_orders db
     (map (fun o => if cancellable oid o then set_status "cancelled" o else o)
          (tbl_orders db))).

(** [UPDATE orders SET order_status = 'paid', paid_at = CURRENT_TIMESTAMP
     WHERE order_id = %s]. *)
Definition update_paid (oid : string) (now : datetime) (db : Db) : Db :=
  with_orders db
    (map (fun o => if orders.order_id o =? oid then set_paid now o else o)
         (tbl_orders db)).

(** [SELECT user_identifier FROM orders WHERE order_id = %s], then
    [fetchone()]: the one-column row of the first match. *)
Definition select_user_identifier (oid : string) (db : Db)
    : option (option string) :=
  option_map orders.user_identifier
    (find (fun o => orders.order_id o =? oid) (tbl_orders db)).

(** [INSERT INTO products (name, price, description, image_url)]. *)
Definition insert_product (n : option string) (p : option pyfloat)
    (d img : option string) (db : Db) : Db :=
  mkDb (tbl_products db ++ [products.mk (next_product_id db) n p d img])
       (tbl_orders db)
       (next_product_id db + 1)%Z.

End Sql.

(* ------------------------------------------------------------------ *)
(** ** The world outside the process *)

(** An f-string, kept as its pieces. *)
Inductive fragment : Type :=
| Lit (s : string)
| Val (v : json)
| Exc (e : exn)
| Num (n : Z).

Definition text : Type := list fragment.

Record Button : Type := mkButton {
  label : string;
  callback_data : text
}.

(** The arguments of one [bot.send_message] call. *)
Record Message : Type := mkMessage {
  chat_id : option string;
  msg_text : text;
  reply_markup : list (list Button)
}.

Record InvoiceRequest : Type := mkInvoiceRequest {
  x_api_key : string;
  price_amount : option pyfloat;
  price_currency : string;
  inv_order_id : string;
  pay_currency : string;
  ipn_callback_url : string
}.

(** What [requests.post] hands back: the status code and the outcome of
    [response.json()]. *)
Record HttpReply : Type := mkHttpReply {
  status_code : Z;
  reply_json : res json
}.

Record Env : Type := mkEnv {
  NOWPAYMENTS_API_KEY : string;
  NOWPAYMENTS_IPN_SECRET : string;
  WEBHOOK_URL : string;
  ADMIN_CHAT_ID : option string;
  (** [hmac.new(key, msg, hashlib.sha512).digest()], as bytes. *)
  hmac_sha512 : string -> string -> string;
  (** The invoice endpoint of the payment processor. *)
  nowpayments : InvoiceRequest -> res HttpReply;
  (** Whether the Telegram API takes a message; [send_message] raises
      otherwise. *)
  telegram_accepts : Message -> bool;
  (** What the storage engine makes of a parameter that is neither an
      integer nor NULL when it is compared with [products.id], and of one
      that is neither text nor NULL when compared with [orders.order_id]. *)
  coerce_id : json -> sql_param Z;
  coerce_text : json -> sql_param string;
  (** The interpreter's table of decimal digits outside ASCII, which the
      pattern [\d] matches besides [0] to [9]: whether the character with
      this encoding is one. *)
  unicode_decimal : string -> bool
}.

Inductive level : Type := INFO | WARNING | ERROR.

Record World : Type := mkWorld {
  store : Db;                       (* what has been committed *)
  outbox : list Message;            (* what Telegram has accepted *)
  log : list (level * text);
  flashed : list string
}.

Inductive Body : Type :=
| Plain (s : string)
| Json (v : json)
| Template (file : string)
| Redirect (endpoint : string).

Record Response : Type := mkResponse {
  status : Z;
  body : Body
}.

(** [jsonify({k: v})] and [jsonify({k: v, k': v'})]. *)
Definition jsonify1 (k : string) (v : json) : Body := Json (JObj [(k, v)]).
Definition jsonify2 (k : string) (v : json) (k' : string) (v' : json) : Body :=
  Json (JObj [(k, v); (k', v')]).

(* ------------------------------------------------------------------ *)
(** ** Handlers as computations: state that survives an exception *)

Definition M (A : Type) : Type := World -> res A * World.

Definition ret {A} (a : A) : M A := fun w => (Ok a, w).

Definition bind {A B} (m : M A) (k : A -> M B) : M B :=
  fun w =>
    match m w with
    | (Ok a, w') => k a w'
    | (Raise e, w') => (Raise e, w')
    end.

Definition raise {A} (e : exn) : M A := fun w => (Raise e, w).

Definition lift {A} (r : res A) : M A := fun w => (r, w).

(** [try: m  except Exception as e: h e]. *)
Definition try_except {A} (m : M A) (h : exn -> M A) : M A :=
  fun w =>
    match m w with
    | (Ok a, w') => (Ok a, w')
    | (Raise e, w') => h e w'
    end.

Declare Scope handler_scope.
Delimit Scope handler_scope with handler.
Notation "x <- m ;; k" := (bind m (fun x => k))
  (at level 100, m at next level, right associativity) : handler_scope.
Notation "m ;; k" := (bind m (fun _ => k))
  (at level 100, right associativity) : handler_scope.
#[local] Open Scope handler_scope.

(** [db_pool.getconn()] followed by the first statement: the connection
    works on its own view of storage until [commit]. *)
Definition getconn : M Db := fun w => (Ok (store w), w).

(** [conn.commit()]. *)
Definition commit (view : Db) : M unit :=
  fun w => (Ok tt, mkWorld view (outbox w) (log w) (flashed w)).

(** [db_pool.putconn(conn)]: work that was not committed is rolled back. *)
Definition putconn : M unit := ret tt.

Definition logger (l : level) (t : text) : M unit :=
  fun w => (Ok tt, mkWorld (store w) (outbox w) (log w ++ [(l, t)]) (flashed w)).

Definition flash (s : string) : M unit :=
  fun w => (Ok tt, mkWorld (store w) (outbox w) (log w) (flashed w ++ [s])).

(* ------------------------------------------------------------------ *)
(** ** Order identifiers *)

Definition alphabet : string := "ABCDEFGHIJKLMNOPQRSTUVWXYZ0123456789".

(** [secrets.choice(seq)] is [seq[secrets.randbelow(len(seq))]]; the draw
    of the secure source below the bound is the remainder of the entropy
    word [e]. The alphabet is not empty, so the index is in range. *)
Definition randbelow (e bound : nat) : nat := e mod bound.

Definition choice (seq : string) (e : nat) : ascii :=
  match String.get (randbelow e (String.length seq)) seq with
  | Some c => c
  | None => " "%char
  end.

Definition digit (n : nat) : ascii := ascii_of_nat (48 + n).

(** A [%d], [%m] or [%y] field of [strftime]: two digits, zero padded. *)
Definition two_digits (n : nat) : string :=
  String (digit (n / 10)) (String (digit (n mod 10)) EmptyString).

(** [now.strftime('%d%m%y')]. *)
Definition strftime_ddmmyy (now : datetime) : string :=
  two_digits (day now) ++ two_digits (month now) ++ two_digits (year now mod 100).

(** [generate_order_id(prefix)]; [rnd i] is the entropy of the [i]-th draw
    and [now] the clock's reading. *)
Definition generate_order_id (prefix : string) (rnd : nat -> nat) (now : datetime)
    : string :=
  let random_part :=
    string_of_list_ascii (map (fun i => choice alphabet (rnd i)) (seq 0 6)) in
  let date_part := strftime_ddmmyy now in
  prefix ++ "-" ++ random_part ++ "-" ++ date_part.

(** What [datetime] guarantees of the month and the day of a date. *)
Definition valid_date (d : datetime) : Prop :=
  1 <= month d <= 12 /\ 1 <= day d <= 31.

(** The pattern [^[BW]-[A-Z0-9]{6}-\d{6}$] of the specification, as a
    regular expression whose atoms each take one character. *)
Inductive regex : Type :=
| Class (p : ascii -> bool)
| Cat (r1 r2 : regex)
| Times (n : nat) (r : regex).

Fixpoint matches_prefix (r : regex) (s : list ascii) : option (list ascii) :=
  match r with
  | Class p =>
      match s with
      | c :: s' => if p c then Some s' else None
      | [] => None
      end
  | Cat r1 r2 =>
      match matches_prefix r1 s with
      | Some s' => matches_prefix r2 s'
      | None => None
      end
  | Times n r' =>
      nat_rect (fun _ => list ascii -> option (list ascii))
        (fun s0 => Some s0)
        (fun _ rec s0 =>
           match matches_prefix r' s0 with
           | Some s1 => rec s1
           | None => None
           end)
        n s
  end.

Definition fullmatch (r : regex) (s : string) : bool :=
  match matches_prefix r (list_ascii_of_string s) with
  | Some [] => true
  | _ => false
  end.

Definition between (lo hi : ascii) (c : ascii) : bool :=
  (nat_of_ascii lo <=? nat_of_ascii c)%nat && (nat_of_ascii c <=? nat_of_ascii hi)%nat.

Definition is_digit : ascii -> bool := between "0" "9".
Definition is_upper_or_digit (c : ascii) : bool := between "A" "Z" c || is_digit c.
Definition is_char (a : ascii) (c : ascii) : bool := Ascii.eqb a c.

Definition order_id_format : regex :=
  Cat (Class (fun c => is_char "B" c || is_char "W" c))
  (Cat (Class (is_char "-"))
  (Cat (Times 6 (Class is_upper_or_digit))
  (Cat (Class (is_char "-"))
       (Times 6 (Class is_digit))))).

(** The number a two-digit field denotes. *)
Definition read_two_digits (s : string) : option nat :=
  match s with
  | String a (String b EmptyString) =>
      if is_digit a && is_digit b
      then Some (10 * (nat_of_ascii a - 48) + (nat_of_ascii b - 48))
      else None
  | _ => None
  end.


(* ------------------------------------------------------------------ *)
(** ** Requests *)

(** A request with a JSON body: the [x-nowpayments-sig] header if there is
    one, the raw body, and what [get_json()] makes of it ([None] when it
    raises [BadRequest]; [Some JNull] when it returns [None]). *)
Record Request : Type := mkRequest {
  sig_header : option string;
  get_data : string;
  json_body : option json
}.

Inductive http_method : Type := GET | POST.

(** What a [FloatField] is given: no value, text [float()] refuses, or the
    float it read. *)
Inductive float_input : Type :=
| NoValue
| NotAFloat
| Parsed (x : pyfloat).

(** A submission of the add-product form. *)
Record FormRequest : Type := mkFormRequest {
  method : http_method;
  csrf_token_valid : bool;
  form_name : option string;
  form_price : float_input;
  form_description : option string;
  form_image_url : option string
}.

(** ** WTForms validators *)

Inductive verdict : Type :=
| Pass
| Invalid          (* ValidationError: recorded, the chain goes on *)
| Stop.            (* StopValidation: recorded, the chain ends *)

(** [DataRequired] on a text field: the data is true and not blank. *)
Definition DataRequired_text (data : option string) : verdict :=
  match data with
  | Some s => if negb (s =? EmptyString) && negb (blank s) then Pass else Stop
  | None => Stop
  end.

(** [DataRequired] on a float field: the data is true. *)
Definition DataRequired_float (data : option pyfloat) : verdict :=
  match data with
  | Some x => if float_truthy x then Pass else Stop
  | None => Stop
  end.

(** [NumberRange(min=0)]. *)
Definition NumberRange_min0 (data : option pyfloat) : verdict :=
  match data with
  | None => Invalid
  | Some x => if float_isnan x || float_negative x then Invalid else Pass
  end.

(** The number of errors a chain of validators records. *)
Fixpoint run_validation_chain {A} (vs : list (A -> verdict)) (data : A) : nat :=
  match vs with
  | [] => 0
  | v :: vs' =>
      match v data with
      | Pass => run_validation_chain vs' data
      | Invalid => S (run_validation_chain vs' data)
      | Stop => 1
      end
  end.

(** [Field.validate]: no error from processing the input nor from the
    chain. *)
Definition field_validate {A} (process_errors : nat) (vs : list (A -> verdict))
    (data : A) : bool :=
  (process_errors + run_validation_chain vs data =? 0)%nat.

Definition float_data (i : float_input) : option pyfloat :=
  match i with Parsed x => Some x | _ => None end.

Definition float_process_errors (i : float_input) : nat :=
  match i with NotAFloat => 1 | _ => 0 end.

Module ProductForm.

(** [form.validate()]: every field is validated, the form is valid when
    all are. *)
Definition validate (f : FormRequest) : bool :=
  let name := field_validate 0 [DataRequired_text] (form_name f) in
  let price :=
    field_validate (float_process_errors (form_price f))
      [DataRequired_float; NumberRange_min0] (float_data (form_price f)) in
  let description := field_validate 0 [DataRequired_text] (form_description f) in
  let image_url := field_validate 0 [] (form_image_url f) in
  name && price && description && image_url && csrf_token_valid f.

Definition is_submitted (f : FormRequest) : bool :=
  match method f with POST => true | GET => false end.

Definition validate_on_submit (f : FormRequest) : bool :=
  is_submitted f && validate f.

End ProductForm.

(* ------------------------------------------------------------------ *)
(** ** The application *)

Definition hex_digit (n : nat) : ascii :=
  nth n (list_ascii_of_string "0123456789abcdef") "0"%char.

(** [hexdigest()] of a digest. *)
Fixpoint hexlify (bytes : string) : string :=
  match bytes with
  | EmptyString => EmptyString
  | String c rest =>
      String (hex_digit (nat_of_ascii c / 16))
        (String (hex_digit (nat_of_ascii c mod 16)) (hexlify rest))
  end.

Definition newline : string := String (ascii_of_nat 10) EmptyString.

Definition OK (b : Body) : Response := mkResponse 200 b.

(** [not v or k not in v]. *)
Definition lacks (k : string) (v : json) : res bool :=
  if negb (truthy v) then Ok true
  else match contains k v with
       | Ok b => Ok (negb b)
       | Raise e => Raise e
       end.

Section App.

Variable env : Env.

Definition id_param (v : json) : sql_param Z :=
  match v with
  | JInt n => Bound n
  | JNull => Unmatched
  | _ => coerce_id env v
  end.

Definition text_param (v : json) : sql_param string :=
  match v with
  | JStr s => Bound s
  | JNull => Unmatched
  | _ => coerce_text env v
  end.

(** A statement whose [WHERE] clause compares a column with the
    parameter: [run] on the bound value, no row when nothing can match, an
    exception when the parameter is refused. *)
Definition where_param {K A} (p : sql_param K) (run : K -> A) (no_row : A) : res A :=
  match p with
  | Bound k => Ok (run k)
  | Unmatched => Ok no_row
  | Rejected => Raise DatabaseError
  end.

(** [cur.execute("SELECT price FROM products WHERE id = %s", (product_id,))]
    and [cur.fetchone()]. *)
Definition fetch_price (product_id : json) (conn : Db) : res (option (option pyfloat)) :=
  where_param (id_param product_id) (fun k => Sql.select_price k conn) None.

(** [cur.execute("INSERT INTO orders ...", (product_id, price, order_id, ''))];
    it runs after [fetch_price] found a row, so the parameter is bound. *)
Definition execute_insert_order (product_id : json) (price : option pyfloat)
    (order_id : string) (now : datetime) (conn : Db) : res Db :=
  match id_param product_id with
  | Bound k => Ok (Sql.insert_order k price None order_id EmptyString now conn)
  | _ => Raise DatabaseError
  end.

(** [cur.execute("UPDATE orders SET order_status = 'paid', ... WHERE order_id = %s")]. *)
Definition execute_update_paid (order_id : json) (now : datetime) (conn : Db) : res Db :=
  where_param (text_param order_id) (fun k => Sql.update_paid k now conn) conn.

(** [cur.execute("SELECT user_identifier FROM orders WHERE order_id = %s")]
    and [cur.fetchone()]. *)
Definition fetch_user_identifier (order_id : json) (conn : Db)
    : res (option (option string)) :=
  where_param (text_param order_id) (fun k => Sql.select_user_identifier k conn) None.

(** [request.get_json()]. *)
Definition get_json (r : Request) : M json :=
  match json_body r with
  | Some v => ret v
  | None => raise BadRequest
  end.

(** [bot.send_message(...)]. *)
Definition send_message (m : Message) : M unit :=
  fun w =>
    if telegram_accepts env m
    then (Ok tt, mkWorld (store w) (outbox w ++ [m]) (log w) (flashed w))
    else (Raise TelegramError, w).

Definition create_invoice (price : option pyfloat) (order_id coin : string)
    : M json :=
  let data :=
    mkInvoiceRequest (NOWPAYMENTS_API_KEY env) price "USD" order_id coin
      (replace "/bot-webhook" "/ipn" (WEBHOOK_URL env)) in
  response <- lift (nowpayments env data) ;;
  logger INFO [Lit "Created invoice for order "; Lit order_id; Lit ": ";
               Num (status_code response)] ;;
  lift (reply_json response).

Definition validate_ipn (request : Request) : M bool :=
  let signature := sig_header request in
  let body := get_data request in
  let expected_sig := hexlify (hmac_sha512 env (NOWPAYMENTS_IPN_SECRET env) body) in
  lift (compare_digest signature expected_sig).

(** [POST /create-order]. *)
Definition create_order (request : Request) (rnd : nat -> nat) (now : datetime)
    : M Response :=
  try_except
    (data <- get_json request ;;
     missing <- lift (lacks "product_id" data) ;;
     if missing
     then ret (mkResponse 400 (jsonify1 "error" (JStr "Missing product_id")))
     else
       product_id <- lift (subscript data "product_id") ;;
       let order_id := generate_order_id "W" rnd now in
       conn <- getconn ;;
       product <- lift (fetch_price product_id conn) ;;
       match product with
       | None =>
           putconn ;;
           ret (mkResponse 404 (jsonify1 "error" (JStr "Product not found")))
       | Some price =>
           conn' <- lift (execute_insert_order product_id price order_id now conn) ;;
           commit conn' ;;
           putconn ;;
           invoice <- create_invoice price order_id "BTC" ;;
           no_url <- lift (lacks "invoice_url" invoice) ;;
           if no_url
           then ret (mkResponse 500
                       (jsonify1 "error" (JStr "Failed to create invoice")))
           else
             payment_url <- lift (get invoice "invoice_url") ;;
             ret (OK (jsonify2 "order_id" (JStr order_id)
                               "payment_url" payment_url))
       end)
    (fun e =>
       logger ERROR [Lit "Error in create_order: "; Exc e] ;;
       ret (mkResponse 500 (jsonify1 "error" (JStr "Internal server error")))).

(** [POST /cancel-order/<order_id>]. *)
Definition cancel_order (order_id : string) : M Response :=
  try_except
    (conn <- getconn ;;
     let (rowcount, conn') := Sql.update_cancelled order_id conn in
     if (0 <? rowcount)%nat
     then
       commit conn' ;;
       putconn ;;
       ret (OK (jsonify1 "success" (JBool true)))
     else
       putconn ;;
       ret (mkResponse 404
              (jsonify1 "error" (JStr "Order not found or not cancellable"))))
    (fun e =>
       logger ERROR [Lit "Error in cancel_order: "; Exc e] ;;
       ret (mkResponse 500 (jsonify1 "error" (JStr "Internal server error")))).

(** [POST /submit-delivery]. *)
Definition submit_delivery (request : Request) : M Response :=
  try_except
    (data <- get_json request ;;
     order_id <- lift (subscript data "order_id") ;;
     method <- lift (subscript data "method") ;;
     details <- lift (subscript data "details") ;;
     let message :=
       [Lit "New Order: "; Val order_id; Lit newline; Lit "Delivery: ";
        Val method; Lit " ("; Val details; Lit ")"] in
     send_message (mkMessage (ADMIN_CHAT_ID env) message []) ;;
     ret (OK (jsonify1 "success" (JBool true))))
    (fun e =>
       logger ERROR [Lit "Error in submit_delivery: "; Exc e] ;;
       ret (mkResponse 500 (jsonify1 "error" (JStr "Internal server error")))).

(** [GET, POST /admin/add]. *)
Definition add_product (form : FormRequest) : M Response :=
  let render := ret (OK (Template "add_product.html")) in
  if ProductForm.validate_on_submit form
  then
    try_except
      (conn <- getconn ;;
       commit (Sql.insert_product (form_name form) (float_data (form_price form))
                 (form_description form) (form_image_url form) conn) ;;
       putconn ;;
       flash "Product added successfully" ;;
       ret (mkResponse 302 (Redirect "admin_panel")))
      (fun e =>
         logger ERROR [Lit "Error adding product: "; Exc e] ;;
         flash "Error adding product" ;;
         render)
  else render.

(** The keyboard and the message [ipn] sends to the buyer. *)
Definition delivery_choice (chat : option string) (order_id : json) : Message :=
  let keyboard :=
    [[mkButton "Telegram" [Lit "delivery_telegram_"; Val order_id];
      mkButton "Email" [Lit "delivery_email_"; Val order_id]]] in
  mkMessage chat [Lit "Payment received! Choose delivery method:"] keyboard.

(** [POST /ipn]; [now] is the storage engine's [CURRENT_TIMESTAMP]. *)
Definition ipn (request : Request) (now : datetime) : M Response :=
  valid <- validate_ipn request ;;
  if negb valid
  then
    logger WARNING [Lit "Invalid IPN signature"] ;;
    ret (mkResponse 400 (Plain "Invalid signature"))
  else
    data <- get_json request ;;
    payment_status <- lift (get data "payment_status") ;;
    (if eq_str payment_status "finished"
     then
       order_id <- lift (subscript data "order_id") ;;
       conn <- getconn ;;
       conn' <- lift (execute_update_paid order_id now conn) ;;
       user_id <- lift (fetch_user_identifier order_id conn') ;;
       commit conn' ;;
       putconn ;;
       match user_id with
       | Some row => send_message (delivery_choice row order_id)
       | None => ret tt
       end ;;
       logger INFO [Lit "Order "; Val order_id; Lit " marked as paid"]
     else ret tt) ;;
    ret (OK (Plain "OK")).

End App.

(* ------------------------------------------------------------------ *)
(** ** Vocabulary of the properties *)

(** The signature the payment processor puts on the raw body. *)
Definition expected_sig (env : Env) (request : Request) : string :=
  hexlify (hmac_sha512 env (NOWPAYMENTS_IPN_SECRET env) (get_data request)).

Definition signed (env : Env) (request : Request) : Prop :=
  sig_header request = Some (expected_sig env request).

(** The body is a JSON object whose [payment_status] is ['finished'] and
    whose [order_id] is the text [oid]. *)
Definition finished_for (request : Request) (oid : string) : Prop :=
  exists d,
    json_body request = Some (JObj d)
    /\ assoc "payment_status" d = Some (JStr "finished")
    /\ assoc "order_id" d = Some (JStr oid).

(** [o] is the one order of [db] with its identifier, between [l1] and
    [l2]. *)
Definition only_order (o : orders.row) (l1 l2 : list orders.row) (db : Db) : Prop :=
  tbl_orders db = l1 ++ o :: l2
  /\ forall o', In o' (l1 ++ l2) -> orders.order_id o' <> orders.order_id o.

(** Some order of [db] has the identifier [oid] and the status [pending]. *)
Definition pending_order (oid : string) (db : Db) : Prop :=
  exists o,
    In o (tbl_orders db)
    /\ orders.order_id o = oid
    /\ orders.order_status o = "pending".

(** The request's [product_id] matches no stored product: no product has
    the identifier it is compared as. A parameter that is NULL, or that
    storage refuses to compare with [products.id], matches none. *)
Definition no_such_product (env : Env) (product_id : json) (db : Db) : Prop :=
  forall k p,
    id_param env product_id = Bound k ->
    In p (tbl_products db) ->
    products.id p <> k.

(** What [create_invoice] returns or raises; the log line apart, it depends
    on the payment processor only. *)
Definition invoice_outcome (env : Env) (price : option pyfloat)
    (order_id coin : string) : res json :=
  match
    nowpayments env
      (mkInvoiceRequest (NOWPAYMENTS_API_KEY env) price "USD" order_id coin
         (replace "/bot-webhook" "/ipn" (WEBHOOK_URL env)))
  with
  | Ok response => reply_json response
  | Raise e => Raise e
  end.

(** The invoice call did not hand back an object with an [invoice_url]. *)
Definition invoice_failed (r : res json) : Prop :=
  forall d, r = Ok (JObj d) -> assoc "invoice_url" d = None.

(* ------------------------------------------------------------------ *)
(** ** A concrete deployment, for the sample runs *)

Module Demo.

(** The Arabic-Indic digits U+0660 to U+0669, D9 A0 to D9 A9. *)
Definition arabic_indic_digit (c : string) : bool :=
  match c with
  | String c1 (String c2 EmptyString) =>
      ((nat_of_ascii c1 =? 217) && (160 <=? nat_of_ascii c2)
       && (nat_of_ascii c2 <=? 169))%nat
  | _ => false
  end.

(** The processor invoices amounts up to 100 USD and answers 400 to the
    others; Telegram takes a message that names a chat; the engine refuses
    parameters of a foreign type; of the decimal digits outside ASCII the
    sample table holds the Arabic-Indic ones. *)
Definition env : Env :=
  mkEnv "api-key" "ipn-secret" "https://shop.example/bot-webhook" (Some "4242")
    (fun key msg => (key ++ msg)%string)
    (fun r =>
       match price_amount r with
       | Some (Fin q) =>
           if Qle_bool q 100%Q
           then Ok (mkHttpReply 200
                      (Ok (JObj [("invoice_url", JStr "https://pay.example/i/1")])))
           else Ok (mkHttpReply 400 (Ok (JObj [("message", JStr "amount too high")])))
       | _ => Raise RequestError
       end)
    (fun m => match chat_id m with Some _ => true | None => false end)
    (fun _ => Rejected)
    (fun _ => Rejected)
    arabic_indic_digit.

Definition t0 : datetime := mkDatetime 2024 3 9 12 0 0.
Definition t1 : datetime := mkDatetime 2024 3 9 12 30 0.
Definition t2 : datetime := mkDatetime 2024 3 9 12 31 0.

Definition widget : products.row :=
  products.mk 1 (Some "Widget") (Some (Fin (999 # 100))) (Some "A widget") None.

Definition yacht : products.row :=
  products.mk 2 (Some "Yacht") (Some (Fin (250000 # 1))) (Some "A yacht") None.

Definition bot_order (st : string) : orders.row :=
  orders.mk 1 (Some (Fin (999 # 100))) (Some "777") "B-QX7K2M-090324" EmptyString st t0 None.

Definition web_order (st : string) : orders.row :=
  orders.mk 1 (Some (Fin (999 # 100))) None "W-4BIPW3-090324" EmptyString st t0 None.

Definition world (os : list orders.row) : World :=
  mkWorld (mkDb [widget; yacht] os 3) [] [] [].

Definition body_for (oid : string) : json :=
  JObj [("payment_status", JStr "finished"); ("order_id", JStr oid)].

(** A notification for [oid], signed by the processor. *)
Definition notification (oid : string) : Request :=
  let unsigned := mkRequest None ("finished:" ++ oid)%string (Some (body_for oid)) in
  mkRequest (Some (expected_sig env unsigned)) (get_data unsigned)
            (json_body unsigned).

Definition rnd (i : nat) : nat := 7 * i + 30.

Definition order_request (pid : Z) : Request :=
  mkRequest None EmptyString (Some (JObj [("product_id", JInt pid)])).

Definition zero_price_form : FormRequest :=
  mkFormRequest POST true (Some "Widget") (Parsed (Fin 0)) (Some "A widget") None.

Definition paid_form : FormRequest :=
  mkFormRequest POST true (Some "Widget") (Parsed (Fin (999 # 100)))
    (Some "A widget") None.

(** U+00A0, the no-break space; U+2003, the em space; U+200B, the
    zero-width space, which is no white space; U+0663, the Arabic-Indic
    digit three. *)
Definition no_break_space : string :=
  String (ascii_of_nat 194) (String (ascii_of_nat 160) EmptyString).

Definition em_space : string :=
  String (ascii_of_nat 226)
    (String (ascii_of_nat 128) (String (ascii_of_nat 131) EmptyString)).

Definition zero_width_space : string :=
  String (ascii_of_nat 226)
    (String (ascii_of_nat 128) (String (ascii_of_nat 139) EmptyString)).

Definition arabic_indic_three : string :=
  String (ascii_of_nat 217) (String (ascii_of_nat 163) EmptyString).

(** The add-product form with a name of one no-break space. *)
Definition blank_name_form : FormRequest :=
  mkFormRequest POST true (Some no_break_space) (Parsed (Fin (999 # 100)))
    (Some "A widget") None.

End Demo.

(* ------------------------------------------------------------------ *)
(** ** The other routes *)

Module Query.

(** [SELECT order_status FROM orders WHERE order_id = %s], then
    [fetchone()]: the one-column row of the first match. *)
Definition select_order_status (oid : string) (db : Db) : option string :=
  option_map orders.order_status
    (find (fun o => orders.order_id o =? oid) (tbl_orders db)).

(** [DELETE FROM products WHERE id = %s]; the statement is taken to
    succeed also for a product that orders refer to. *)
Definition delete_products (pid : Z) (db : Db) : Db :=
  mkDb (filter (fun p => negb (products.id p =? pid)%Z) (tbl_products db))
       (tbl_orders db)
       (next_product_id db).

(** [SELECT name, price, description FROM products WHERE id = %s], then
    [fetchone()]. *)
Definition select_product (k : Z) (db : Db) : option products.row :=
  find (fun p => (products.id p =? k)%Z) (tbl_products db).

End Query.

(** [GET /order-status/<order_id>]. *)
Definition order_status (order_id : string) : M Response :=
  try_except
    (conn <- getconn ;;
     let status := Query.select_order_status order_id conn in
     putconn ;;
     match status with
     | Some st => ret (OK (jsonify1 "status" (JStr st)))
     | None => ret (mkResponse 404 (jsonify1 "status" (JStr "not found")))
     end)
    (fun e =>
       logger ERROR [Lit "Error in order_status: "; Exc e] ;;
       ret (mkResponse 500 (jsonify1 "status" (JStr "error")))).

(** [GET /admin/delete/<int:product_id>]. *)
Definition delete_product (product_id : Z) : M Response :=
  try_except
    (conn <- getconn ;;
     commit (Query.delete_products product_id conn) ;;
     putconn ;;
     flash "Product deleted")
    (fun e =>
       logger ERROR [Lit "Error deleting product: "; Exc e] ;;
       flash "Error deleting product") ;;
  ret (mkResponse 302 (Redirect "admin_panel")).

(** [os.getenv('ADMIN_PASSWORD', 'admin123')]; [configured] is the
    variable of the environment, if it is set. *)
Definition ADMIN_PASSWORD (configured : option string) : string :=
  match configured with
  | Some v => v
  | None => "admin123"
  end.

(** [GET, POST /admin]; [password] is [request.form.get('password')]. *)
Definition admin (configured : option string) (m : http_method)
    (password : option string) : M Response :=
  let login := ret (OK (Template "admin_login.html")) in
  match m with
  | POST =>
      match password with
      | Some p =>
          if p =? ADMIN_PASSWORD configured
          then ret (mkResponse 302 (Redirect "admin_panel"))
          else flash "Invalid password" ;; login
      | None => flash "Invalid password" ;; login
      end
  | GET => login
  end.

(* ------------------------------------------------------------------ *)
(** ** The Telegram bot *)

(** [s.split(sep)] for a separator of one character. *)
Fixpoint split_on (sep : ascii) (s : string) : list string :=
  match s with
  | EmptyString => [EmptyString]
  | String c rest =>
      if Ascii.eqb c sep
      then EmptyString :: split_on sep rest
      else match split_on sep rest with
           | part :: parts => String c part :: parts
           | [] => [String c EmptyString]
           end
  end.

(** [sep.join(parts)]. *)
Fixpoint join (sep : string) (parts : list string) : string :=
  match parts with
  | [] => EmptyString
  | [part] => part
  | part :: rest => part ++ sep ++ join sep rest
  end.

(** [str(n)] of an [int]. *)
Definition str_of_int (n : Z) : string :=
  DecimalString.NilZero.string_of_int (Z.to_int n).

(** The string an f-string evaluates to, for the values whose [str] is
    modelled: text and integers. *)
Fixpoint render (t : text) : option string :=
  match t with
  | [] => Some EmptyString
  | f :: t' =>
      match
        match f with
        | Lit s => Some s
        | Val (JStr s) => Some s
        | Val (JInt n) => Some (str_of_int n)
        | Num n => Some (str_of_int n)
        | _ => None
        end, render t'
      with
      | Some s, Some s' => Some (s ++ s')%string
      | _, _ => None
      end
  end.

Definition json_of_text (o : option string) : json :=
  match o with Some s => JStr s | None => JNull end.

Definition json_of_float (o : option pyfloat) : json :=
  match o with Some x => JFloat x | None => JNull end.

(** An [InlineKeyboardButton], with [callback_data] or with [url]. *)
Inductive KeyboardButton : Type :=
| CallbackButton (caption : text) (data : text)
| UrlButton (caption : text) (url : json).

(** What a handler shows the user: [reply_text] or [edit_message_text]. *)
Record Reply : Type := mkReply {
  shown : text;
  keyboard : list (list KeyboardButton)
}.

(** [context.user_data], the dict the library keeps for one user. *)
Definition UserData : Type := list (string * string).

Fixpoint dict_set (k v : string) (d : UserData) : UserData :=
  match d with
  | [] => [(k, v)]
  | (k', v') :: d' =>
      if k' =? k then (k, v) :: d' else (k', v') :: dict_set k v d'
  end.

Fixpoint dict_get (k : string) (d : UserData) : option string :=
  match d with
  | [] => None
  | (k', v) :: d' => if k' =? k then Some v else dict_get k d'
  end.

(** [bool(v)] of what [user_data.get] returns. *)
Definition given (v : option string) : bool :=
  match v with
  | Some s => negb (s =? EmptyString)
  | None => false
  end.

(** The longest prefix of [s] made of characters in [p], and the rest. *)
Fixpoint span (p : ascii -> bool) (s : string) : string * string :=
  match s with
  | EmptyString => (EmptyString, EmptyString)
  | String c rest =>
      if p c
      then let (taken, left) := span p rest in (String c taken, left)
      else (EmptyString, s)
  end.

Fixpoint strip_prefix (p s : string) : option string :=
  match p, s with
  | EmptyString, _ => Some s
  | String a p', String b s' => if Ascii.eqb a b then strip_prefix p' s' else None
  | String _ _, EmptyString => None
  end.

(** [$]: the end of the string, or the newline that ends it. *)
Definition at_end (s : string) : bool :=
  (s =? EmptyString) || (s =? newline).

Definition is_upper : ascii -> bool := between "A" "Z".

(** What [\d+] takes at the start of [s], and the rest: the longest run of
    decimal digits. A byte below 128 is a digit when it is one of [0] to
    [9]; a character outside ASCII, of two, three or four bytes by its
    first byte, is one when [decimal] says so. *)
Fixpoint span_decimal (decimal : string -> bool) (s : string) : string * string :=
  match s with
  | EmptyString => (EmptyString, EmptyString)
  | String c1 s1 =>
      let n := nat_of_ascii c1 in
      if is_digit c1
      then let (taken, left) := span_decimal decimal s1 in (String c1 taken, left)
      else if (n <? 192)%nat then (EmptyString, s)
      else
        match s1 with
        | EmptyString => (EmptyString, s)
        | String c2 s2 =>
            if (n <? 224)%nat
            then
              if decimal (String c1 (String c2 EmptyString))
              then let (taken, left) := span_decimal decimal s2 in
                   (String c1 (String c2 taken), left)
              else (EmptyString, s)
            else
              match s2 with
              | EmptyString => (EmptyString, s)
              | String c3 s3 =>
                  if (n <? 240)%nat
                  then
                    if decimal (String c1 (String c2 (String c3 EmptyString)))
                    then let (taken, left) := span_decimal decimal s3 in
                         (String c1 (String c2 (String c3 taken)), left)
                    else (EmptyString, s)
                  else
                    match s3 with
                    | EmptyString => (EmptyString, s)
                    | String c4 s4 =>
                        if decimal
                             (String c1 (String c2 (String c3 (String c4 EmptyString))))
                        then let (taken, left) := span_decimal decimal s4 in
                             (String c1 (String c2 (String c3 (String c4 taken))),
                              left)
                        else (EmptyString, s)
                    end
              end
        end
  end.

(** [re.match('^view_products$', data)]. *)
Definition re_view_products (data : string) : bool :=
  match strip_prefix "view_products" data with
  | Some rest => at_end rest
  | None => false
  end.

(** [re.match('^buy_\d+$', data)]. *)
Definition re_buy (env : Env) (data : string) : bool :=
  match strip_prefix "buy_" data with
  | Some rest =>
      let (digits, rest') := span_decimal (unicode_decimal env) rest in
      negb (digits =? EmptyString) && at_end rest'
  | None => false
  end.

(** [re.match('^confirm_\d+_[A-Z]+$', data)]. *)
Definition re_confirm (env : Env) (data : string) : bool :=
  match strip_prefix "confirm_" data with
  | Some rest =>
      let (digits, rest') := span_decimal (unicode_decimal env) rest in
      negb (digits =? EmptyString) &&
      match strip_prefix "_" rest' with
      | Some rest'' =>
          let (letters, rest''') := span is_upper rest'' in
          negb (letters =? EmptyString) && at_end rest'''
      | None => false
      end
  | None => false
  end.

(** [re.match('^delivery_(telegram|email)_', data)]. *)
Definition re_delivery (data : string) : bool :=
  match strip_prefix "delivery_telegram_" data with
  | Some _ => true
  | None =>
      match strip_prefix "delivery_email_" data with
      | Some _ => true
      | None => false
      end
  end.

(** The callback-query handlers, in the order they are registered; the
    dispatcher runs the first whose pattern matches the data. *)
Inductive callback_handler : Type :=
| ViewProducts
| BuyProduct
| ConfirmPurchase
| ChooseDelivery.

Definition dispatch (env : Env) (data : string) : option callback_handler :=
  if re_view_products data then Some ViewProducts
  else if re_buy env data then Some BuyProduct
  else if re_confirm env data then Some ConfirmPurchase
  else if re_delivery data then Some ChooseDelivery
  else None.

(** [/start]. *)
Definition start : Reply :=
  mkReply [Lit "Welcome to Vault Shop!"]
    [[CallbackButton [Lit "View Products"] [Lit "view_products"]]].

(** The coins [buy_product] offers. *)
Definition coins : list string := ["BTC"; "ETH"; "LTC"; "USDT"; "BCH"].

(** [choose_delivery]: [None] when [split('_')[1]] raises; otherwise the
    user data it leaves and what it shows. *)
Definition choose_delivery (data : string) (user_data : UserData)
    : option (UserData * Reply) :=
  match split_on "_" data with
  | _ :: method :: rest =>
      let order_id := join "_" rest in
      let user_data := dict_set "method" method user_data in
      let user_data := dict_set "order_id" order_id user_data in
      Some (user_data,
            mkReply [Lit "Enter your "; Val (JStr method); Lit " details:"] [])
  | _ => None
  end.

Section Bot.

Variable env : Env.

(** [view_products]. *)
Definition view_products : M Reply :=
  conn <- getconn ;;
  let products := tbl_products conn in
  putconn ;;
  let keyboard :=
    map (fun p =>
           [CallbackButton
              [Val (json_of_text (products.name p)); Lit " - $";
               Val (json_of_float (products.price p))]
              [Lit "buy_"; Num (products.id p)]])
        products in
  ret (mkReply [Lit "Select a product:"] keyboard).

(** [buy_product]: [None] when [split('_')[1]] raises; the computation
    answers [None] when there is no such product, and nothing is shown. *)
Definition buy_product (data : string) : option (M (option Reply)) :=
  match split_on "_" data with
  | _ :: product_id :: _ =>
      Some
        (conn <- getconn ;;
         product <- lift (where_param (id_param env (JStr product_id))
                            (fun k => Query.select_product k conn) None) ;;
         putconn ;;
         match product with
         | Some p =>
             let shown :=
               [Val (json_of_text (products.name p)); Lit newline;
                Lit "Price: $"; Val (json_of_float (products.price p)); Lit newline;
                Val (json_of_text (products.description p)); Lit newline;
                Lit newline; Lit "Choose coin:"] in
             let keyboard :=
               map (fun coin =>
                      [CallbackButton [Lit coin]
                         [Lit "confirm_"; Val (JStr product_id); Lit "_";
                          Val (JStr coin)]])
                   coins in
             ret (Some (mkReply shown keyboard))
         | None => ret None
         end)
  | _ => None
  end.

(** [confirm_purchase]: [None] when the unpacking of [split('_')] raises;
    [user_id] is [callback_query.from_user.id]. *)
Definition confirm_purchase (data : string) (user_id : Z) (rnd : nat -> nat)
    (now : datetime) : option (M Reply) :=
  match split_on "_" data with
  | [_; product_id; coin] =>
      Some
        (let order_id := generate_order_id "B" rnd now in
         conn <- getconn ;;
         row <- lift (fetch_price env (JStr product_id) conn) ;;
         price <- match row with
                  | Some price => ret price
                  | None => raise TypeError
                  end ;;
         conn' <- lift
                    match id_param env (JStr product_id) with
                    | Bound k =>
                        Ok (Sql.insert_order k price (Some (str_of_int user_id))
                              order_id EmptyString now conn)
                    | _ => Raise DatabaseError
                    end ;;
         commit conn' ;;
         putconn ;;
         invoice <- create_invoice env price order_id coin ;;
         payment_url <- lift (get invoice "invoice_url") ;;
         let keyboard := [[UrlButton [Lit "Pay Now"] payment_url]] in
         ret (mkReply [Lit "Order created: "; Val (JStr order_id); Lit newline;
                       Lit "Pay here:"] keyboard))
  | _ => None
  end.

(** [receive_details]; [details] is the text of the message. *)
Definition receive_details (details : string) (user_data : UserData)
    : M (option Reply) :=
  let method := dict_get "method" user_data in
  let order_id := dict_get "order_id" user_data in
  if given method && given order_id
  then
    let message :=
      [Lit "New Order: "; Val (json_of_text order_id); Lit newline;
       Lit "Delivery: "; Val (json_of_text method); Lit " ("; Val (JStr details);
       Lit ")"] in
    send_message env (mkMessage (ADMIN_CHAT_ID env) message []) ;;
    ret (Some (mkReply
                 [Lit "Details submitted! You will receive your product soon."]
                 []))
  else ret None.

End Bot.

(** A deployment whose storage engine reads decimal text as the integer it
    denotes. *)
Module Demo2.

Definition env : Env :=
  mkEnv (NOWPAYMENTS_API_KEY Demo.env) (NOWPAYMENTS_IPN_SECRET Demo.env)
    (WEBHOOK_URL Demo.env) (ADMIN_CHAT_ID Demo.env) (hmac_sha512 Demo.env)
    (nowpayments Demo.env) (telegram_accepts Demo.env)
    (fun v =>
       match v with
       | JStr s =>
           match DecimalString.NilZero.int_of_string s with
           | Some i => Bound (Z.of_int i)
           | None => Rejected
           end
       | _ => Rejected
       end)
    (coerce_text Demo.env)
    (unicode_decimal Demo.env).

End Demo2.

(** ** Vocabulary of the further properties *)

(** [old] occurs in [base ++ old] at a position inside [base]. *)
Fixpoint early_match (old base : string) : bool :=
  match base with
  | EmptyString => false
  | String _ rest => prefix old (base ++ old) || early_match old rest
  end.

(** The identifiers of the stored products are below the one storage
    hands out next. *)
Definition ids_below_next (db : Db) : Prop :=
  forall p, In p (tbl_products db) -> (products.id p < next_product_id db)%Z.

(** No two stored products share an identifier, and all are below the
    next one. *)
Definition well_keyed (db : Db) : Prop :=
  NoDup (map products.id (tbl_products db)) /\ ids_below_next db.


(** The request [create_invoice] posts to the payment processor. *)
Definition invoice_request (env : Env) (price : option pyfloat)
    (order_id coin callback : string) : InvoiceRequest :=
  mkInvoiceRequest (NOWPAYMENTS_API_KEY env) price "USD" order_id coin callback.

(* ------------------------------------------------------------------ *)
(** * Properties *)

(** ** Sample runs of the helpers *)

Example replace_webhook :
  replace "/bot-webhook" "/ipn" "https://shop.example/bot-webhook" = "https://shop.example/ipn".
Proof. reflexivity. Qed.

Example contains_substring : contains "product_id" (JStr "my product_id") = Ok true.
Proof. reflexivity. Qed.

Example generate_order_id_sample :
  generate_order_id "W" (fun i => 7 * i + 30) (mkDatetime 2024 3 9 12 0 0)
  = "W-4BIPW3-090324".
Proof. reflexivity. Qed.

Example order_id_format_rejects_lowercase :
  fullmatch order_id_format "W-4biPW3-090324" = false.
Proof. reflexivity. Qed.

Example blank_white_space :
  blank (" " ++ Demo.no_break_space ++ newline ++ Demo.em_space) = true.
Proof. reflexivity. Qed.

Example blank_zero_width_space : blank Demo.zero_width_space = false.
Proof. reflexivity. Qed.

Example blank_padded_word : blank (Demo.no_break_space ++ "a ") = false.
Proof. reflexivity. Qed.

(** [DataRequired] strips the no-break space: the name counts as missing
    and nothing is inserted. *)
Example add_product_blank_name :
  ProductForm.validate_on_submit Demo.blank_name_form = false
  /\ add_product Demo.blank_name_form (Demo.world [])
     = (Ok (OK (Template "add_product.html")), Demo.world []).
Proof. split; reflexivity. Qed.

(** [\d] takes a digit outside ASCII: the data reaches [buy_product],
    where storage refuses to read it as an identifier. *)
Example dispatch_arabic_indic_digit :
  let data := ("buy_" ++ Demo.arabic_indic_three)%string in
  dispatch Demo.env data = Some BuyProduct
  /\ dispatch Demo.env ("buy_" ++ Demo.no_break_space) = None
  /\ exists c,
       buy_product Demo.env data = Some c
       /\ c (Demo.world []) = (Raise DatabaseError, Demo.world []).
Proof.
  cbv zeta. split; [reflexivity|]. split; [reflexivity|].
  eexists. split; reflexivity.
Qed.

(** ** Order identifiers *)

Lemma digit_is_digit n : n < 10 -> is_digit (digit n) = true.
Proof.
  intros H. do 10 (destruct n as [|n]; [reflexivity|]). lia.
Qed.

Lemma digit_value n : n < 10 -> nat_of_ascii (digit n) - 48 = n.
Proof.
  intros H. do 10 (destruct n as [|n]; [reflexivity|]). lia.
Qed.

Lemma choice_alphabet e : is_upper_or_digit (choice alphabet e) = true.
Proof.
  unfold choice, randbelow.
  assert (H : e mod String.length alphabet < 36)
    by (apply Nat.mod_upper_bound; discriminate).
  destruct (e mod String.length alphabet) as [|n]; [reflexivity|].
  do 35 (destruct n as [|n]; [reflexivity|]). lia.
Qed.

Lemma read_two_digits_two_digits n : n < 100 -> read_two_digits (two_digits n) = Some n.
Proof.
  intros H. unfold two_digits, read_two_digits.
  assert (Hq : n / 10 < 10) by (apply Nat.Div0.div_lt_upper_bound; lia).
  assert (Hr : n mod 10 < 10) by (apply Nat.mod_upper_bound; lia).
  rewrite !digit_is_digit, !digit_value by assumption. cbn [andb].
  f_equal. symmetry. apply Nat.div_mod_eq.
Qed.

(** A string of the shape [generate_order_id] builds matches the format. *)
Lemma order_id_shape_matches t c0 c1 c2 c3 c4 c5 d0 d1 d2 d3 d4 d5 :
  is_char "B" t || is_char "W" t = true ->
  Forall (fun c => is_upper_or_digit c = true) [c0; c1; c2; c3; c4; c5] ->
  Forall (fun c => is_digit c = true) [d0; d1; d2; d3; d4; d5] ->
  fullmatch order_id_format
    (string_of_list_ascii
       ([t; "-"%char] ++ [c0; c1; c2; c3; c4; c5] ++ ["-"%char]
        ++ [d0; d1; d2; d3; d4; d5])) = true.
Proof.
  intros Ht Hc Hd.
  repeat match goal with
         | H : Forall _ (_ :: _) |- _ => inversion H; subst; clear H
         | H : Forall _ [] |- _ => clear H
         end.
  unfold fullmatch, order_id_format.
  rewrite list_ascii_of_string_of_list_ascii.
  repeat (cbn -[is_upper_or_digit is_digit is_char];
          match goal with
          | |- context [is_char "-" "-"] => change (is_char "-" "-") with true
          | |- context [is_char "B" t || is_char "W" t] => rewrite Ht
          | H : ?p ?c = true |- context [?p ?c] => rewrite H
          end).
  reflexivity.
Qed.

(** C6. Every identifier [generate_order_id] builds for the origin tag [B]
    or [W] matches [^[BW]-[A-Z0-9]{6}-\d{6}$]: it starts with the tag, its
    random segment is six draws of the secure source from the uppercase
    letters and digits, and its date segment is the creation date as
    [ddmmyy], from which day, month and two-digit year are read back. *)
Theorem generate_order_id_format (prefix : string) (rnd : nat -> nat) (now : datetime) :
  prefix = "B" \/ prefix = "W" ->
  valid_date now ->
  let oid := generate_order_id prefix rnd now in
  fullmatch order_id_format oid = true
  /\ substring 0 1 oid = prefix
  /\ (forall i, i < 6 -> String.get (2 + i) oid = Some (choice alphabet (rnd i)))
  /\ substring 9 6 oid = strftime_ddmmyy now
  /\ read_two_digits (substring 9 2 oid) = Some (day now)
  /\ read_two_digits (substring 11 2 oid) = Some (month now)
  /\ read_two_digits (substring 13 2 oid) = Some (year now mod 100).
Proof.
  intros Hp [[_ Hm] [_ Hd]] oid.
  assert (Hy : year now mod 100 < 100) by (apply Nat.mod_upper_bound; lia).
  assert (Hdig : forall n, n < 100 -> n / 10 < 10 /\ n mod 10 < 10).
  { intros n Hn. split.
    - apply Nat.Div0.div_lt_upper_bound; lia.
    - apply Nat.mod_upper_bound; lia. }
  assert (Hshape : oid = string_of_list_ascii
            ([match prefix with String t _ => t | EmptyString => " "%char end; "-"%char]
             ++ map (fun i => choice alphabet (rnd i)) (seq 0 6) ++ ["-"%char]
             ++ list_ascii_of_string (strftime_ddmmyy now))).
  { subst oid. destruct Hp; subst prefix; reflexivity. }
  repeat split.
  - rewrite Hshape. unfold strftime_ddmmyy, two_digits.
    cbn -[choice digit Nat.div Nat.modulo is_char].
    apply (order_id_shape_matches _ _ _ _ _ _ _ _ _ _ _ _ _).
    + destruct Hp; subst prefix; reflexivity.
    + repeat constructor; apply choice_alphabet.
    + destruct (Hdig (day now)), (Hdig (month now)), (Hdig (year now mod 100));
        try lia.
      repeat constructor; apply digit_is_digit; assumption.
  - subst oid. destruct Hp; subst prefix; reflexivity.
  - intros i Hi. subst oid.
    do 6 (destruct i as [|i]; [destruct Hp; subst prefix; reflexivity|]). lia.
  - subst oid. destruct Hp; subst prefix; reflexivity.
  - rewrite <- (read_two_digits_two_digits (day now)) by lia.
    subst oid. destruct Hp; subst prefix; reflexivity.
  - rewrite <- (read_two_digits_two_digits (month now)) by lia.
    subst oid. destruct Hp; subst prefix; reflexivity.
  - rewrite <- (read_two_digits_two_digits (year now mod 100)) by lia.
    subst oid. destruct Hp; subst prefix; reflexivity.
Qed.

Lemma generate_order_id_format_witness :
  let now := mkDatetime 2024 3 9 12 0 0 in
  let oid := generate_order_id "W" (fun i => 7 * i + 30) now in
  fullmatch order_id_format oid = true
  /\ substring 0 1 oid = "W"
  /\ (forall i, i < 6 -> String.get (2 + i) oid = Some (choice alphabet (7 * i + 30)))
  /\ substring 9 6 oid = strftime_ddmmyy now
  /\ read_two_digits (substring 9 2 oid) = Some 9
  /\ read_two_digits (substring 11 2 oid) = Some 3
  /\ read_two_digits (substring 13 2 oid) = Some 24.
Proof.
  apply (generate_order_id_format "W" (fun i => 7 * i + 30)
           (mkDatetime 2024 3 9 12 0 0)).
  - right; reflexivity.
  - unfold valid_date; simpl; lia.
Defined.

(** ** Cancelling an order *)

Lemma cancellable_spec oid o :
  Sql.cancellable oid o = true
  <-> orders.order_id o = oid /\ orders.order_status o = "pending".
Proof.
  unfold Sql.cancellable. rewrite andb_true_iff, !String.eqb_eq. reflexivity.
Qed.

Lemma rowcount_pending oid db :
  (0 <? fst (Sql.update_cancelled oid db))%nat = true <-> pending_order oid db.
Proof.
  unfold Sql.update_cancelled, pending_order. cbn [fst].
  rewrite Nat.ltb_lt. split.
  - intros H.
    destruct (filter (Sql.cancellable oid) (tbl_orders db)) as [|o l] eqn:E;
      [cbn in H; lia|].
    assert (Ho : In o (filter (Sql.cancellable oid) (tbl_orders db)))
      by (rewrite E; left; reflexivity).
    apply filter_In in Ho. destruct Ho as [Hin Hc].
    apply cancellable_spec in Hc. exists o. tauto.
  - intros [o [Hin Hc]]. apply cancellable_spec in Hc.
    assert (Ho : In o (filter (Sql.cancellable oid) (tbl_orders db)))
      by (apply filter_In; split; assumption).
    destruct (filter (Sql.cancellable oid) (tbl_orders db));
      [destruct Ho | cbn; lia].
Qed.

(** What [cancel_order] computes, by the row count of its [UPDATE]. *)
Lemma cancel_order_run oid w :
  cancel_order oid w =
  if (0 <? fst (Sql.update_cancelled oid (store w)))%nat
  then (Ok (OK (jsonify1 "success" (JBool true))),
        mkWorld (snd (Sql.update_cancelled oid (store w)))
                (outbox w) (log w) (flashed w))
  else (Ok (mkResponse 404
              (jsonify1 "error" (JStr "Order not found or not cancellable"))),
        w).
Proof.
  unfold cancel_order, try_except, bind, getconn, commit, putconn, ret.
  cbn [fst snd Sql.update_cancelled].
  destruct (0 <? _)%nat; reflexivity.
Qed.


(** ** Creating an order *)

Lemma lacks_key_present k d v : assoc k d = Some v -> lacks k (JObj d) = Ok false.
Proof.
  intros H. unfold lacks, truthy, contains. rewrite H.
  destruct d; [discriminate | reflexivity].
Qed.

Lemma fetch_price_int env n db :
  fetch_price env (JInt n) db = Ok None
  <-> forall p, In p (tbl_products db) -> products.id p <> n.
Proof.
  unfold fetch_price, where_param, id_param, Sql.select_price.
  split.
  - intros H p Hin Hp.
    destruct (find _ (tbl_products db)) eqn:E; [discriminate|].
    apply (find_none _ _ E) in Hin. apply Z.eqb_neq in Hin. contradiction.
  - intros H. destruct (find _ (tbl_products db)) as [p|] eqn:E; [|reflexivity].
    apply find_some in E. destruct E as [Hin Hp]. apply Z.eqb_eq in Hp.
    exfalso. apply (H p Hin Hp).
Qed.

Lemma select_price_none k db :
  Sql.select_price k db = None
  <-> forall p, In p (tbl_products db) -> products.id p <> k.
Proof.
  unfold Sql.select_price. split.
  - intros H p Hin Hp.
    destruct (find _ (tbl_products db)) eqn:E; [discriminate|].
    apply (find_none _ _ E) in Hin. apply Z.eqb_neq in Hin. contradiction.
  - intros H. destruct (find _ (tbl_products db)) as [p|] eqn:E; [|reflexivity].
    apply find_some in E. destruct E as [Hin Hp]. apply Z.eqb_eq in Hp.
    exfalso. apply (H p Hin Hp).
Qed.

(** C5, as the code has it. A [POST /create-order] whose [product_id]
    matches no stored product never writes an order row, and sends
    nothing. It is answered 404 when the identifier can be compared with
    the products' (it is an integer, NULL, or read as one by storage); when
    storage refuses the comparison the statement raises and the answer is
    500 [Internal server error], with the error logged. *)
Theorem create_order_unknown_product (env : Env) (request : Request)
    (rnd : nat -> nat) (now : datetime) (w : World)
    (d : list (string * json)) (product_id : json) :
  json_body request = Some (JObj d) ->
  assoc "product_id" d = Some product_id ->
  no_such_product env product_id (store w) ->
  let out := create_order env request rnd now w in
  store (snd out) = store w
  /\ outbox (snd out) = outbox w
  /\ (id_param env product_id <> Rejected ->
      out = (Ok (mkResponse 404 (jsonify1 "error" (JStr "Product not found"))), w))
  /\ (id_param env product_id = Rejected ->
      out = (Ok (mkResponse 500 (jsonify1 "error" (JStr "Internal server error"))),
             mkWorld (store w) (outbox w)
               (log w ++ [(ERROR, [Lit "Error in create_order: ";
                                   Exc DatabaseError])])
               (flashed w))).
Proof.
  intros Hbody Hkey Hnone out. subst out.
  unfold create_order, try_except, bind, get_json, lift, getconn, putconn, ret.
  rewrite Hbody. cbn [fst snd].
  rewrite (lacks_key_present _ _ _ Hkey).
  unfold subscript. rewrite Hkey.
  unfold fetch_price, where_param.
  unfold no_such_product in Hnone.
  destruct (id_param env product_id) as [k| |] eqn:Hp.
  - assert (Hsel : Sql.select_price k (store w) = None).
    { apply select_price_none. intros p Hin. exact (Hnone k p eq_refl Hin). }
    rewrite Hsel. cbn [fst snd].
    repeat split; intros; try reflexivity; discriminate.
  - cbn [fst snd].
    repeat split; intros; try reflexivity; discriminate.
  - cbn [fst snd logger store outbox].
    repeat split; intros; try reflexivity; contradiction.
Qed.

Lemma create_order_unknown_product_witness :
  let w := Demo.world [] in
  let failed :=
    mkWorld (store w) (outbox w)
      (log w ++ [(ERROR, [Lit "Error in create_order: "; Exc DatabaseError])])
      (flashed w) in
  let by_number := Demo.order_request 5 in
  let by_text :=
    mkRequest None EmptyString (Some (JObj [("product_id", JStr "abc")])) in
  (let out := create_order Demo.env by_number Demo.rnd Demo.t0 w in
   store (snd out) = store w
   /\ outbox (snd out) = outbox w
   /\ (id_param Demo.env (JInt 5) <> Rejected ->
       out = (Ok (mkResponse 404 (jsonify1 "error" (JStr "Product not found"))), w))
   /\ (id_param Demo.env (JInt 5) = Rejected ->
       out = (Ok (mkResponse 500 (jsonify1 "error" (JStr "Internal server error"))),
              failed)))
  /\ (let out := create_order Demo.env by_text Demo.rnd Demo.t0 w in
      store (snd out) = store w
      /\ outbox (snd out) = outbox w
      /\ (id_param Demo.env (JStr "abc") <> Rejected ->
          out = (Ok (mkResponse 404 (jsonify1 "error" (JStr "Product not found"))),
                 w))
      /\ (id_param Demo.env (JStr "abc") = Rejected ->
          out = (Ok (mkResponse 500
                       (jsonify1 "error" (JStr "Internal server error"))),
                 failed)))
  /\ id_param Demo.env (JInt 5) = Bound 5%Z
  /\ id_param Demo.env (JStr "abc") = Rejected.
Proof.
  cbv zeta. split; [|split; [|split; reflexivity]].
  - apply (create_order_unknown_product Demo.env (Demo.order_request 5) Demo.rnd
             Demo.t0 (Demo.world []) [("product_id", JInt 5)] (JInt 5)).
    + reflexivity.
    + reflexivity.
    + intros k p Hk Hin. injection Hk as Hk. subst k.
      destruct Hin as [Hp | [Hp | []]]; subst p; discriminate.
  - apply (create_order_unknown_product Demo.env
             (mkRequest None EmptyString (Some (JObj [("product_id", JStr "abc")])))
             Demo.rnd Demo.t0 (Demo.world []) [("product_id", JStr "abc")]
             (JStr "abc")).
    + reflexivity.
    + reflexivity.
    + intros k p Hk. discriminate Hk.
Defined.

(** A request the claim speaks of and the code answers with 500: the
    identifier ['abc'] names no product, and storage refuses to compare it
    with the products' integer identifiers. *)
Example create_order_text_product_id :
  let request :=
    mkRequest None EmptyString (Some (JObj [("product_id", JStr "abc")])) in
  let out := create_order Demo.env request Demo.rnd Demo.t0 (Demo.world []) in
  no_such_product Demo.env (JStr "abc") (store (Demo.world []))
  /\ fst out = Ok (mkResponse 500 (jsonify1 "error" (JStr "Internal server error")))
  /\ fst out <> Ok (mkResponse 404 (jsonify1 "error" (JStr "Product not found")))
  /\ store (snd out) = store (Demo.world []).
Proof.
  cbv zeta. split; [intros k p Hk; discriminate Hk|].
  split; [reflexivity|]. split; [discriminate | reflexivity].
Qed.

Lemma create_invoice_run env price oid coin w :
  create_invoice env price oid coin w =
  match
    nowpayments env
      (mkInvoiceRequest (NOWPAYMENTS_API_KEY env) price "USD" oid coin
         (replace "/bot-webhook" "/ipn" (WEBHOOK_URL env)))
  with
  | Ok response =>
      (reply_json response,
       mkWorld (store w) (outbox w)
         (log w ++ [(INFO, [Lit "Created invoice for order "; Lit oid; Lit ": ";
                            Num (status_code response)])])
         (flashed w))
  | Raise e => (Raise e, w)
  end.
Proof.
  unfold create_invoice, bind, lift, logger.
  destruct (nowpayments env _); reflexivity.
Qed.

Lemma create_invoice_outcome env price oid coin w :
  fst (create_invoice env price oid coin w) = invoice_outcome env price oid coin
  /\ store (snd (create_invoice env price oid coin w)) = store w
  /\ outbox (snd (create_invoice env price oid coin w)) = outbox w.
Proof.
  rewrite create_invoice_run. unfold invoice_outcome.
  destruct (nowpayments env _); repeat split.
Qed.

(** What [create_order] does once the product is found: the row is
    committed, then the invoice is asked for. *)
Lemma create_order_found env request rnd now w d product_id k price :
  json_body request = Some (JObj d) ->
  assoc "product_id" d = Some product_id ->
  id_param env product_id = Bound k ->
  Sql.select_price k (store w) = Some price ->
  let oid := generate_order_id "W" rnd now in
  let w1 := mkWorld (Sql.insert_order k price None oid EmptyString now (store w))
                    (outbox w) (log w) (flashed w) in
  create_order env request rnd now w =
  try_except
    (bind (create_invoice env price oid "BTC") (fun invoice =>
     bind (lift (lacks "invoice_url" invoice)) (fun no_url =>
     if no_url
     then ret (mkResponse 500 (jsonify1 "error" (JStr "Failed to create invoice")))
     else bind (lift (get invoice "invoice_url")) (fun payment_url =>
          ret (OK (jsonify2 "order_id" (JStr oid) "payment_url" payment_url))))))
    (fun e =>
       bind (logger ERROR [Lit "Error in create_order: "; Exc e]) (fun _ =>
       ret (mkResponse 500 (jsonify1 "error" (JStr "Internal server error")))))
    w1.
Proof.
  intros Hbody Hkey Hid Hprice oid w1.
  unfold create_order, try_except, bind, get_json, lift, getconn, putconn,
    commit, ret.
  rewrite Hbody. cbn [fst snd].
  rewrite (lacks_key_present _ _ _ Hkey).
  unfold subscript, fetch_price, execute_insert_order, where_param.
  rewrite Hkey, Hid, Hprice. reflexivity.
Qed.

(** C10. Once the product is found, [POST /create-order] has committed the
    new order row, with status [pending], before it asks the payment
    processor for an invoice: whatever the processor does, the row is in
    storage afterwards, and when the invoice call fails (it raises, or hands
    back anything but an object with an [invoice_url]) the answer is 500
    with the row still there. *)
Theorem create_order_commits_before_invoice (env : Env) (request : Request)
    (rnd : nat -> nat) (now : datetime) (w : World)
    (d : list (string * json)) (product_id : json) (k : Z)
    (price : option pyfloat) :
  json_body request = Some (JObj d) ->
  assoc "product_id" d = Some product_id ->
  id_param env product_id = Bound k ->
  Sql.select_price k (store w) = Some price ->
  let oid := generate_order_id "W" rnd now in
  let out := create_order env request rnd now w in
  tbl_orders (store (snd out)) =
    tbl_orders (store w) ++ [orders.mk k price None oid EmptyString "pending" now None]
  /\ tbl_products (store (snd out)) = tbl_products (store w)
  /\ (invoice_failed (invoice_outcome env price oid "BTC") ->
      exists msg,
        fst out = Ok (mkResponse 500 (jsonify1 "error" (JStr msg))))
  /\ (forall d' url,
        invoice_outcome env price oid "BTC" = Ok (JObj d') ->
        assoc "invoice_url" d' = Some url ->
        fst out = Ok (OK (jsonify2 "order_id" (JStr oid) "payment_url" url))).
Proof.
  intros Hbody Hkey Hid Hprice oid out. subst out.
  rewrite (create_order_found env request rnd now w d product_id k price)
    by assumption.
  fold oid. clearbody oid. unfold try_except, bind. rewrite create_invoice_run.
  unfold invoice_outcome, invoice_failed.
  set (inv := mkInvoiceRequest (NOWPAYMENTS_API_KEY env) price "USD" oid "BTC" _).
  destruct (nowpayments env inv) as [[sc [v|e]]|e]; cbn [reply_json status_code];
    unfold lift.
  - destruct v as [| b | n | x | s | l | d'];
      unfold lacks, truthy, contains, get, logger, ret;
      try (destruct d' as [|kv d'];
           [| destruct (assoc "invoice_url" (kv :: d')) as [u|] eqn:E]);
      cbn -[assoc];
      repeat match goal with
             | |- context [if ?c then _ else _] => destruct c
             end;
      cbn [fst snd negb store];
      (split; [reflexivity | split; [reflexivity | split]]);
      try (intros _; eexists; reflexivity);
      try (intros d0 url Hd Hu; inversion Hd; subst;
           first [congruence | cbn in Hu; congruence]);
      try (intros Hf; specialize (Hf _ eq_refl); congruence).
  - unfold logger, ret. cbn [fst snd store].
    split; [reflexivity | split; [reflexivity | split]];
      [intros _; eexists; reflexivity | discriminate].
  - unfold logger, ret. cbn [fst snd store].
    split; [reflexivity | split; [reflexivity | split]];
      [intros _; eexists; reflexivity | discriminate].
Qed.

Lemma create_order_commits_before_invoice_witness :
  let oid := generate_order_id "W" Demo.rnd Demo.t0 in
  let out :=
    create_order Demo.env (Demo.order_request 2) Demo.rnd Demo.t0 (Demo.world []) in
  tbl_orders (store (snd out)) =
    [] ++ [orders.mk 2 (Some (Fin (250000 # 1))) None oid EmptyString "pending" Demo.t0 None]
  /\ tbl_products (store (snd out)) = [Demo.widget; Demo.yacht]
  /\ (invoice_failed
        (invoice_outcome Demo.env (Some (Fin (250000 # 1))) oid "BTC") ->
      exists msg,
        fst out = Ok (mkResponse 500 (jsonify1 "error" (JStr msg))))
  /\ (forall d' url,
        invoice_outcome Demo.env (Some (Fin (250000 # 1))) oid "BTC"
          = Ok (JObj d') ->
        assoc "invoice_url" d' = Some url ->
        fst out = Ok (OK (jsonify2 "order_id" (JStr oid) "payment_url" url))).
Proof.
  apply (create_order_commits_before_invoice Demo.env (Demo.order_request 2)
           Demo.rnd Demo.t0 (Demo.world []) [("product_id", JInt 2)] (JInt 2) 2
           (Some (Fin (250000 # 1))));
    reflexivity.
Defined.

(** ** Missing fields *)

(** [POST /create-order] checks for its field: without [product_id] the
    answer is 400 and nothing changes. *)
Lemma create_order_missing_product_id env request rnd now w d :
  json_body request = Some (JObj d) ->
  assoc "product_id" d = None ->
  create_order env request rnd now w =
    (Ok (mkResponse 400 (jsonify1 "error" (JStr "Missing product_id"))), w).
Proof.
  intros Hbody Hkey.
  unfold create_order, try_except, bind, get_json, lift, ret.
  rewrite Hbody. cbn [fst snd]. unfold lacks, truthy, contains. rewrite Hkey.
  destruct d; reflexivity.
Qed.

(** C7, as the code has it. [POST /submit-delivery] makes no such check: a
    body that lacks [order_id], [method] or [details] raises [KeyError]
    inside the handler, which answers 500, not a 4xx; no message is sent. *)
Theorem submit_delivery_missing_field (env : Env) (request : Request) (w : World)
    (d : list (string * json)) :
  json_body request = Some (JObj d) ->
  assoc "order_id" d = None \/ assoc "method" d = None \/ assoc "details" d = None ->
  submit_delivery env request w =
    (Ok (mkResponse 500 (jsonify1 "error" (JStr "Internal server error"))),
     mkWorld (store w) (outbox w)
       (log w ++ [(ERROR, [Lit "Error in submit_delivery: "; Exc KeyError])])
       (flashed w)).
Proof.
  intros Hbody Hmiss.
  unfold submit_delivery, try_except, bind, get_json, lift, logger, ret.
  rewrite Hbody. cbn [fst snd]. unfold subscript.
  destruct (assoc "order_id" d); [|reflexivity].
  destruct (assoc "method" d); [|reflexivity].
  destruct (assoc "details" d); [|reflexivity].
  destruct Hmiss as [H | [H | H]]; discriminate H.
Qed.

Lemma submit_delivery_missing_field_witness :
  submit_delivery Demo.env
    (mkRequest None EmptyString
       (Some (JObj [("order_id", JStr "W-4BIPW3-090324"); ("method", JStr "email")])))
    (Demo.world [])
  = (Ok (mkResponse 500 (jsonify1 "error" (JStr "Internal server error"))),
     mkWorld (store (Demo.world [])) []
       ([] ++ [(ERROR, [Lit "Error in submit_delivery: "; Exc KeyError])]) []).
Proof.
  apply (submit_delivery_missing_field Demo.env _ (Demo.world [])
           [("order_id", JStr "W-4BIPW3-090324"); ("method", JStr "email")]).
  - reflexivity.
  - right; right; reflexivity.
Defined.

(** ** The add-product form *)



Lemma add_product_accepted f w :
  ProductForm.validate_on_submit f = true ->
  add_product f w =
    (Ok (mkResponse 302 (Redirect "admin_panel")),
     mkWorld (Sql.insert_product (form_name f) (float_data (form_price f))
                (form_description f) (form_image_url f) (store w))
             (outbox w) (log w) (flashed w ++ ["Product added successfully"])).
Proof.
  intros H. unfold add_product. rewrite H. reflexivity.
Qed.

Lemma add_product_refused f w :
  ProductForm.validate_on_submit f = false ->
  add_product f w = (Ok (OK (Template "add_product.html")), w).
Proof.
  intros H. unfold add_product. rewrite H. reflexivity.
Qed.

(** C8, as the code has it. A submission with a name, a description and
    the price 0 is refused: [DataRequired] reads the float 0.0 as missing
    data before [NumberRange(min=0)] is asked. The form is shown again and
    no product is inserted. *)
Theorem add_product_refuses_zero_price (w : World) (n d : string)
    (img : option string) :
  add_product (mkFormRequest POST true (Some n) (Parsed (Fin 0)) (Some d) img) w
  = (Ok (OK (Template "add_product.html")), w).
Proof.
  apply add_product_refused.
  unfold ProductForm.validate_on_submit, ProductForm.validate, field_validate.
  cbn. rewrite !andb_false_r. reflexivity.
Qed.

Example add_product_accepts_positive_price :
  tbl_products (store (snd (add_product Demo.paid_form (Demo.world []))))
  = [Demo.widget; Demo.yacht;
     products.mk 3 (Some "Widget") (Some (Fin (999 # 100))) (Some "A widget") None].
Proof. reflexivity. Qed.

(** ** Payment notifications *)

Lemma hex_digit_ascii n : is_ascii_char (hex_digit n) = true.
Proof.
  unfold hex_digit.
  do 16 (destruct n as [|n]; [reflexivity|]).
  destruct n; reflexivity.
Qed.

Lemma hexlify_ascii bytes : is_ascii (hexlify bytes) = true.
Proof.
  induction bytes as [|c rest IH]; [reflexivity|].
  cbn [hexlify]. unfold is_ascii in *. cbn [all_chars].
  rewrite !hex_digit_ascii, IH. reflexivity.
Qed.

Lemma validate_ipn_run env request w :
  validate_ipn env request w
  = (compare_digest (sig_header request) (expected_sig env request), w).
Proof. reflexivity. Qed.

Lemma validate_ipn_signed env request w :
  signed env request -> validate_ipn env request w = (Ok true, w).
Proof.
  intros H. rewrite validate_ipn_run. unfold signed in H. rewrite H.
  unfold compare_digest, expected_sig.
  rewrite hexlify_ascii, String.eqb_refl. reflexivity.
Qed.

(** A request whose signature does not check changes neither storage nor
    the outbox, whether the check answers false or raises. *)
Lemma ipn_unsigned_run env request now w :
  sig_header request <> Some (expected_sig env request) ->
  ipn env request now w =
  match sig_header request with
  | Some s =>
      if is_ascii s
      then (Ok (mkResponse 400 (Plain "Invalid signature")),
            mkWorld (store w) (outbox w)
              (log w ++ [(WARNING, [Lit "Invalid IPN signature"])]) (flashed w))
      else (Raise TypeError, w)
  | None => (Raise TypeError, w)
  end.
Proof.
  intros Hne. unfold ipn, bind. rewrite validate_ipn_run.
  unfold compare_digest, expected_sig in *.
  destruct (sig_header request) as [s|]; [|reflexivity].
  rewrite hexlify_ascii, andb_true_r.
  destruct (is_ascii s); [|reflexivity].
  assert (Hs : (s =? hexlify (hmac_sha512 env (NOWPAYMENTS_IPN_SECRET env)
                                (get_data request))) = false).
  { apply String.eqb_neq. intros E. apply Hne. rewrite E. reflexivity. }
  rewrite Hs. reflexivity.
Qed.

(** What [ipn] does with a signed notification that reports ['finished']
    for the order identifier [oid]. *)
Lemma ipn_finished_run env request now w oid :
  signed env request ->
  finished_for request oid ->
  let db := Sql.update_paid oid now (store w) in
  let info := (INFO, [Lit "Order "; Val (JStr oid); Lit " marked as paid"]) in
  ipn env request now w =
  match Sql.select_user_identifier oid db with
  | Some row =>
      if telegram_accepts env (delivery_choice row (JStr oid))
      then (Ok (OK (Plain "OK")),
            mkWorld db (outbox w ++ [delivery_choice row (JStr oid)])
                    (log w ++ [info]) (flashed w))
      else (Raise TelegramError, mkWorld db (outbox w) (log w) (flashed w))
  | None =>
      (Ok (OK (Plain "OK")), mkWorld db (outbox w) (log w ++ [info]) (flashed w))
  end.
Proof.
  intros Hsig [d [Hbody [Hst Hid]]] db info.
  unfold ipn, bind. rewrite (validate_ipn_signed _ _ _ Hsig). cbn [negb].
  unfold get_json. rewrite Hbody. unfold ret, lift, get. rewrite Hst.
  cbn [eq_str is_str String.eqb Ascii.eqb Bool.eqb andb].
  change ("finished" =? "finished") with true. cbn iota.
  unfold subscript. rewrite Hid.
  unfold getconn, execute_update_paid, fetch_user_identifier, where_param,
    text_param, commit, putconn, ret, send_message, logger.
  cbn [fst snd store outbox log flashed]. fold db.
  destruct (Sql.select_user_identifier oid db) as [row|]; [|reflexivity].
  destruct (telegram_accepts env _); reflexivity.
Qed.

Lemma set_paid_order_id now o :
  orders.order_id (Sql.set_paid now o) = orders.order_id o.
Proof. reflexivity. Qed.

Lemma set_paid_twice t1 t2 o :
  Sql.set_paid t2 (Sql.set_paid t1 o) = Sql.set_paid t2 o.
Proof. reflexivity. Qed.

Lemma map_unmatched now oid l :
  (forall o, In o l -> orders.order_id o <> oid) ->
  map (fun o => if orders.order_id o =? oid then Sql.set_paid now o else o) l = l.
Proof.
  induction l as [|a l IH]; intros H; [reflexivity|].
  cbn [map]. rewrite IH by (intros o Ho; apply H; right; assumption).
  assert (Ha : (orders.order_id a =? oid) = false)
    by (apply String.eqb_neq, H; left; reflexivity).
  rewrite Ha. reflexivity.
Qed.

Lemma update_paid_only now o l1 l2 db :
  only_order o l1 l2 db ->
  tbl_orders (Sql.update_paid (orders.order_id o) now db)
  = l1 ++ Sql.set_paid now o :: l2
  /\ tbl_products (Sql.update_paid (orders.order_id o) now db) = tbl_products db
  /\ only_order (Sql.set_paid now o) l1 l2
       (Sql.update_paid (orders.order_id o) now db).
Proof.
  intros [Htbl Huniq].
  assert (E : tbl_orders (Sql.update_paid (orders.order_id o) now db)
              = l1 ++ Sql.set_paid now o :: l2).
  { unfold Sql.update_paid, Sql.with_orders. cbn [tbl_orders].
    rewrite Htbl, map_app. cbn [map].
    rewrite String.eqb_refl, !map_unmatched; [reflexivity | |];
      intros o' Ho'; apply Huniq, in_or_app; [right | left]; assumption. }
  repeat split; assumption.
Qed.

Lemma select_user_identifier_only o l1 l2 db :
  only_order o l1 l2 db ->
  Sql.select_user_identifier (orders.order_id o) db
  = Some (orders.user_identifier o).
Proof.
  intros [Htbl Huniq]. unfold Sql.select_user_identifier. rewrite Htbl.
  assert (Hl1 : forall o', In o' l1 -> orders.order_id o' <> orders.order_id o)
    by (intros o' Ho'; apply Huniq, in_or_app; left; assumption).
  clear Huniq Htbl. induction l1 as [|a l1 IH]; cbn [app find].
  - rewrite String.eqb_refl. reflexivity.
  - assert (Ha : (orders.order_id a =? orders.order_id o) = false)
      by (apply String.eqb_neq, Hl1; left; reflexivity).
    rewrite Ha. apply IH. intros o' Ho'. apply Hl1. right. assumption.
Qed.

(** The same, when [o] is the one order with the identifier. *)
Lemma ipn_finished_only_run env request now w o l1 l2 :
  signed env request ->
  finished_for request (orders.order_id o) ->
  only_order o l1 l2 (store w) ->
  let oid := orders.order_id o in
  let db := Sql.update_paid oid now (store w) in
  let info := (INFO, [Lit "Order "; Val (JStr oid); Lit " marked as paid"]) in
  let message := delivery_choice (orders.user_identifier o) (JStr oid) in
  ipn env request now w =
  if telegram_accepts env message
  then (Ok (OK (Plain "OK")),
        mkWorld db (outbox w ++ [message]) (log w ++ [info]) (flashed w))
  else (Raise TelegramError, mkWorld db (outbox w) (log w) (flashed w)).
Proof.
  intros Hsig Hfin Honly oid db info message.
  rewrite (ipn_finished_run env request now w _ Hsig Hfin).
  destruct (update_paid_only now o l1 l2 (store w) Honly) as [_ [_ Honly']].
  pose proof (select_user_identifier_only _ _ _ _ Honly') as Hsel.
  rewrite set_paid_order_id in Hsel. fold oid in Hsel. fold oid. rewrite Hsel.
  reflexivity.
Qed.

(** C1, amended. A signed notification that reports ['finished'] for the
    identifier of exactly one stored order sets that order's status to
    [paid], whatever its status was, and stamps its payment time; no other
    order and no product changes. When the order has a buyer identifier and
    Telegram takes the message, the answer is 200 and exactly one
    delivery-choice message, addressed to that buyer, is sent. *)
Theorem ipn_finished_marks_paid (env : Env) (request : Request) (now : datetime)
    (w : World) (o : orders.row) (l1 l2 : list orders.row) :
  signed env request ->
  finished_for request (orders.order_id o) ->
  only_order o l1 l2 (store w) ->
  let out := ipn env request now w in
  let paid := Sql.set_paid now o in
  tbl_orders (store (snd out)) = l1 ++ paid :: l2
  /\ tbl_products (store (snd out)) = tbl_products (store w)
  /\ orders.order_status paid = "paid"
  /\ orders.paid_at paid = Some now
  /\ (forall uid,
        orders.user_identifier o = Some uid ->
        telegram_accepts env
          (delivery_choice (Some uid) (JStr (orders.order_id o))) = true ->
        fst out = Ok (OK (Plain "OK"))
        /\ outbox (snd out)
           = outbox w ++ [delivery_choice (Some uid) (JStr (orders.order_id o))]).
Proof.
  intros Hsig Hfin Honly out paid. subst out.
  rewrite (ipn_finished_only_run env request now w o l1 l2 Hsig Hfin Honly).
  destruct (update_paid_only now o l1 l2 (store w) Honly) as [Htbl [Hprod _]].
  destruct (telegram_accepts env
              (delivery_choice (orders.user_identifier o)
                 (JStr (orders.order_id o)))) eqn:Eacc;
    cbn [fst snd store outbox];
    (split; [exact Htbl | split; [exact Hprod | split; [reflexivity | split; [reflexivity|]]]]);
    intros uid Huid Hacc.
  - rewrite Huid. split; reflexivity.
  - rewrite Huid in Eacc. congruence.
Qed.

Lemma ipn_finished_marks_paid_witness :
  let o := Demo.bot_order "pending" in
  let out := ipn Demo.env (Demo.notification "B-QX7K2M-090324") Demo.t1
                 (Demo.world [o]) in
  let paid := Sql.set_paid Demo.t1 o in
  tbl_orders (store (snd out)) = [] ++ paid :: []
  /\ tbl_products (store (snd out)) = [Demo.widget; Demo.yacht]
  /\ orders.order_status paid = "paid"
  /\ orders.paid_at paid = Some Demo.t1
  /\ (forall uid,
        orders.user_identifier o = Some uid ->
        telegram_accepts Demo.env
          (delivery_choice (Some uid) (JStr (orders.order_id o))) = true ->
        fst out = Ok (OK (Plain "OK"))
        /\ outbox (snd out)
           = [] ++ [delivery_choice (Some uid) (JStr (orders.order_id o))]).
Proof.
  apply (ipn_finished_marks_paid Demo.env (Demo.notification "B-QX7K2M-090324")
           Demo.t1 (Demo.world [Demo.bot_order "pending"])
           (Demo.bot_order "pending") [] []).
  - reflexivity.
  - exists [("payment_status", JStr "finished");
            ("order_id", JStr "B-QX7K2M-090324")].
    repeat split.
  - split; [reflexivity | intros o' []].
Defined.

(** The claim as first stated fails: [ipn] does not ask for the prior
    status, and a cancelled order is marked paid. *)
Lemma ipn_marks_cancelled_order_paid :
  let w := Demo.world [Demo.bot_order "cancelled"] in
  let out := ipn Demo.env (Demo.notification "B-QX7K2M-090324") Demo.t1 w in
  signed Demo.env (Demo.notification "B-QX7K2M-090324")
  /\ map orders.order_status (tbl_orders (store w)) = ["cancelled"]
  /\ fst out = Ok (OK (Plain "OK"))
  /\ map orders.order_status (tbl_orders (store (snd out))) = ["paid"]
  /\ ~ (forall o o',
          In o (tbl_orders (store w)) ->
          In o' (tbl_orders (store (snd out))) ->
          orders.order_id o' = orders.order_id o ->
          orders.order_status o' = "paid" ->
          orders.order_status o <> "paid" ->
          orders.order_status o = "pending").
Proof.
  cbv zeta. repeat split.
  intros H.
  specialize (H (Demo.bot_order "cancelled")
                (Sql.set_paid Demo.t1 (Demo.bot_order "cancelled"))).
  assert (Hc : orders.order_status (Demo.bot_order "cancelled") = "pending").
  { apply H.
    - left; reflexivity.
    - left; reflexivity.
    - reflexivity.
    - reflexivity.
    - discriminate. }
  discriminate Hc.
Qed.

Lemma update_paid_again oid t db :
  Sql.update_paid oid t (Sql.update_paid oid t db) = Sql.update_paid oid t db.
Proof.
  unfold Sql.update_paid, Sql.with_orders. cbn [tbl_orders tbl_products next_product_id].
  f_equal. rewrite map_map. apply map_ext. intros o.
  destruct (orders.order_id o =? oid) eqn:E.
  - cbn [Sql.set_paid orders.order_id]. rewrite E. reflexivity.
  - rewrite E. reflexivity.
Qed.

(** C2, amended. Take a signed ['finished'] notification for the one
    order with its identifier, an order with a buyer whose delivery-choice
    message Telegram takes. Processing it a second time leaves every
    order's status as the first processing left it, the order staying
    [paid]; but it stamps the payment time again, with the time of the
    second processing, so that storage is the same exactly when the two
    times agree, and it sends the buyer a second delivery-choice
    message. *)
Theorem ipn_replay (env : Env) (request : Request) (t1 t2 : datetime)
    (w : World) (o : orders.row) (l1 l2 : list orders.row) (uid : string) :
  signed env request ->
  finished_for request (orders.order_id o) ->
  only_order o l1 l2 (store w) ->
  orders.user_identifier o = Some uid ->
  telegram_accepts env
    (delivery_choice (Some uid) (JStr (orders.order_id o))) = true ->
  let message := delivery_choice (Some uid) (JStr (orders.order_id o)) in
  let w1 := snd (ipn env request t1 w) in
  let out2 := ipn env request t2 w1 in
  let paid1 := Sql.set_paid t1 o in
  let paid2 := Sql.set_paid t2 o in
  fst out2 = Ok (OK (Plain "OK"))
  /\ tbl_orders (store w1) = l1 ++ paid1 :: l2
  /\ tbl_orders (store (snd out2)) = l1 ++ paid2 :: l2
  /\ orders.order_status paid1 = "paid"
  /\ orders.paid_at paid1 = Some t1
  /\ orders.order_status paid2 = "paid"
  /\ orders.paid_at paid2 = Some t2
  /\ map orders.order_status (tbl_orders (store (snd out2)))
     = map orders.order_status (tbl_orders (store w1))
  /\ outbox w1 = outbox w ++ [message]
  /\ outbox (snd out2) = outbox w ++ [message; message]
  /\ (store (snd out2) = store w1 <-> t2 = t1).
Proof.
  intros Hsig Hfin Honly Huid Hacc message w1 out2 paid1 paid2.
  destruct (update_paid_only t1 o l1 l2 (store w) Honly) as [Htbl1 [_ Honly1]].
  assert (Hw1 : w1 = mkWorld (Sql.update_paid (orders.order_id o) t1 (store w))
                       (outbox w ++ [message])
                       (log w ++ [(INFO, [Lit "Order "; Val (JStr (orders.order_id o));
                                          Lit " marked as paid"])])
                       (flashed w)).
  { subst w1.
    rewrite (ipn_finished_only_run env request t1 w o l1 l2 Hsig Hfin Honly).
    rewrite Huid, Hacc. reflexivity. }
  assert (Honly1' : only_order (Sql.set_paid t1 o) l1 l2 (store w1))
    by (rewrite Hw1; exact Honly1).
  destruct (update_paid_only t2 _ l1 l2 (store w1) Honly1') as [Htbl2 _].
  rewrite set_paid_order_id, set_paid_twice in Htbl2.
  assert (Hout2 : out2 = (Ok (OK (Plain "OK")),
                          mkWorld (Sql.update_paid (orders.order_id o) t2 (store w1))
                            (outbox w1 ++ [message])
                            (log w1 ++ [(INFO, [Lit "Order "; Val (JStr (orders.order_id o));
                                                Lit " marked as paid"])])
                            (flashed w1))).
  { subst out2.
    rewrite (ipn_finished_only_run env request t2 w1 (Sql.set_paid t1 o) l1 l2
               Hsig Hfin Honly1').
    cbn [Sql.set_paid orders.order_id orders.user_identifier].
    rewrite Huid, Hacc. reflexivity. }
  assert (Htbl1' : tbl_orders (store w1) = l1 ++ Sql.set_paid t1 o :: l2)
    by (rewrite Hw1; exact Htbl1).
  rewrite Hout2. cbn [fst snd store outbox].
  split; [reflexivity|].
  split; [exact Htbl1'|].
  split; [exact Htbl2|].
  split; [reflexivity|]. split; [reflexivity|].
  split; [reflexivity|]. split; [reflexivity|].
  split.
  { rewrite Htbl2, Htbl1', !map_app. reflexivity. }
  split; [rewrite Hw1; reflexivity|].
  split.
  { rewrite Hw1. cbn [outbox]. rewrite <- app_assoc. reflexivity. }
  split.
  - intros Hstore. apply (f_equal tbl_orders) in Hstore.
    rewrite Htbl2, Htbl1' in Hstore.
    apply app_inv_head in Hstore.
    apply (f_equal (fun l => map orders.paid_at (firstn 1 l))) in Hstore.
    cbn in Hstore. congruence.
  - intros Ht. subst t2. rewrite Hw1. cbn [store]. apply update_paid_again.
Qed.

Lemma ipn_replay_witness :
  let o := Demo.bot_order "pending" in
  let request := Demo.notification "B-QX7K2M-090324" in
  let w := Demo.world [o] in
  let message := delivery_choice (Some "777") (JStr (orders.order_id o)) in
  let w1 := snd (ipn Demo.env request Demo.t1 w) in
  let out2 := ipn Demo.env request Demo.t2 w1 in
  let paid1 := Sql.set_paid Demo.t1 o in
  let paid2 := Sql.set_paid Demo.t2 o in
  fst out2 = Ok (OK (Plain "OK"))
  /\ tbl_orders (store w1) = [] ++ paid1 :: []
  /\ tbl_orders (store (snd out2)) = [] ++ paid2 :: []
  /\ orders.order_status paid1 = "paid"
  /\ orders.paid_at paid1 = Some Demo.t1
  /\ orders.order_status paid2 = "paid"
  /\ orders.paid_at paid2 = Some Demo.t2
  /\ map orders.order_status (tbl_orders (store (snd out2)))
     = map orders.order_status (tbl_orders (store w1))
  /\ outbox w1 = outbox w ++ [message]
  /\ outbox (snd out2) = outbox w ++ [message; message]
  /\ (store (snd out2) = store w1 <-> Demo.t2 = Demo.t1).
Proof.
  apply (ipn_replay Demo.env (Demo.notification "B-QX7K2M-090324") Demo.t1 Demo.t2
           (Demo.world [Demo.bot_order "pending"]) (Demo.bot_order "pending")
           [] [] "777").
  - reflexivity.
  - exists [("payment_status", JStr "finished");
            ("order_id", JStr "B-QX7K2M-090324")].
    repeat split.
  - split; [reflexivity | intros o' []].
  - reflexivity.
  - reflexivity.
Defined.

(** The claim as first stated fails: the second processing of one
    notification sends a second message and moves the payment time. *)
Lemma ipn_second_delivery_notifies_again :
  let request := Demo.notification "B-QX7K2M-090324" in
  let w0 := Demo.world [Demo.bot_order "pending"] in
  let w1 := snd (ipn Demo.env request Demo.t1 w0) in
  let w2 := snd (ipn Demo.env request Demo.t2 w1) in
  signed Demo.env request
  /\ List.length (outbox w1) = 1
  /\ List.length (outbox w2) = 2
  /\ map orders.paid_at (tbl_orders (store w1)) = [Some Demo.t1]
  /\ map orders.paid_at (tbl_orders (store w2)) = [Some Demo.t2]
  /\ store w2 <> store w1
  /\ outbox w2 <> outbox w1.
Proof.
  cbv zeta.
  split; [reflexivity|]. split; [reflexivity|]. split; [reflexivity|].
  split; [reflexivity|]. split; [reflexivity|]. split.
  - intros H. apply (f_equal (fun db => map orders.paid_at (tbl_orders db))) in H.
    vm_compute in H. discriminate H.
  - intros H. apply (f_equal (@List.length Message)) in H.
    vm_compute in H. discriminate H.
Qed.

(** C3, as the code has it. A request whose signature header is not the
    HMAC of the raw body never changes storage and sends nothing; but it is
    answered 400 only when the header is there and made of ASCII characters.
    Without the header, or with a character outside ASCII in it, the
    comparison raises [TypeError] and the handler does not return. *)
Theorem ipn_bad_signature (env : Env) (request : Request) (now : datetime)
    (w : World) :
  sig_header request <> Some (expected_sig env request) ->
  let out := ipn env request now w in
  store (snd out) = store w
  /\ outbox (snd out) = outbox w
  /\ (fst out = Ok (mkResponse 400 (Plain "Invalid signature"))
      <-> exists s, sig_header request = Some s /\ is_ascii s = true)
  /\ (sig_header request = None -> out = (Raise TypeError, w)).
Proof.
  intros Hne out. subst out. rewrite (ipn_unsigned_run env request now w Hne).
  destruct (sig_header request) as [s|].
  - destruct (is_ascii s) eqn:Ea; cbn [fst snd store outbox].
    + split; [reflexivity | split; [reflexivity | split; [|discriminate]]].
      split; [intros _; exists s; split; [reflexivity | assumption] | reflexivity].
    + split; [reflexivity | split; [reflexivity | split; [|discriminate]]].
      split; [discriminate|]. intros [s' [H1 H2]]. inversion H1; subst. congruence.
  - cbn [fst snd]. split; [reflexivity | split; [reflexivity | split; [|reflexivity]]].
    split; [discriminate | intros [s [H _]]; discriminate].
Qed.

Lemma ipn_bad_signature_witness :
  let request := mkRequest None "finished:B-QX7K2M-090324"
                   (Some (Demo.body_for "B-QX7K2M-090324")) in
  let w := Demo.world [Demo.bot_order "pending"] in
  let out := ipn Demo.env request Demo.t1 w in
  store (snd out) = store w
  /\ outbox (snd out) = outbox w
  /\ (fst out = Ok (mkResponse 400 (Plain "Invalid signature"))
      <-> exists s, sig_header request = Some s /\ is_ascii s = true)
  /\ (sig_header request = None -> out = (Raise TypeError, w)).
Proof.
  apply (ipn_bad_signature Demo.env
           (mkRequest None "finished:B-QX7K2M-090324"
              (Some (Demo.body_for "B-QX7K2M-090324")))
           Demo.t1 (Demo.world [Demo.bot_order "pending"])).
  cbn. discriminate.
Defined.

(** C9. A request to [/ipn] without the [x-nowpayments-sig] header hands
    [None] to [compare_digest], which raises [TypeError]; [validate_ipn]
    and the handler raise with it instead of answering 400, whatever the
    body is. The world is left as it was. *)
Theorem ipn_without_signature_raises (env : Env) (raw : string)
    (parsed : option json) (now : datetime) (w : World) :
  let request := mkRequest None raw parsed in
  compare_digest (sig_header request) (expected_sig env request) = Raise TypeError
  /\ validate_ipn env request w = (Raise TypeError, w)
  /\ ipn env request now w = (Raise TypeError, w)
  /\ fst (ipn env request now w) <> Ok (mkResponse 400 (Plain "Invalid signature")).
Proof.
  cbv zeta. repeat split. discriminate.
Qed.

(* ------------------------------------------------------------------ *)
(** * Further properties *)

(** ** [create_order] on every request *)

(** X1. [POST /create-order] never raises: whatever the request, the
    payment processor and the storage engine's reading of the parameter
    are, it answers 200, 400, 404 or 500. It never touches the products
    nor the outbox, and the orders are as before or have one more row at
    the end, a web order with status [pending]. *)
Theorem create_order_always_answers (env : Env) (request : Request)
    (rnd : nat -> nat) (now : datetime) (w : World) :
  let out := create_order env request rnd now w in
  (exists r,
      fst out = Ok r
      /\ (status r = 200 \/ status r = 400 \/ status r = 404 \/ status r = 500)%Z)
  /\ tbl_products (store (snd out)) = tbl_products (store w)
  /\ outbox (snd out) = outbox w
  /\ (tbl_orders (store (snd out)) = tbl_orders (store w)
      \/ exists k price,
           tbl_orders (store (snd out)) =
             tbl_orders (store w) ++
               [orders.mk k price None (generate_order_id "W" rnd now)
                  EmptyString "pending" now None]).
Proof.
  cbv zeta. unfold create_order.
  set (oid := generate_order_id "W" rnd now). clearbody oid.
  unfold try_except, bind, get_json, lift, getconn, putconn, commit, logger,
    ret, raise, fetch_price, execute_insert_order, where_param.
  destruct (json_body request) as [data|];
    [| cbn; repeat split; eauto 10].
  destruct (lacks "product_id" data) as [[|]|e];
    [cbn; repeat split; eauto 10 | | cbn; repeat split; eauto 10].
  destruct (subscript data "product_id") as [pid|e];
    [| cbn; repeat split; eauto 10].
  destruct (id_param env pid) as [k | |];
    [| cbn; repeat split; eauto 10 | cbn; repeat split; eauto 10].
  destruct (Sql.select_price k (store w)) as [price|];
    [| cbn; repeat split; eauto 10].
  rewrite create_invoice_run. cbn [fst snd store outbox log flashed].
  destruct (nowpayments env _) as [[sc [v|e]]|e];
    cbn [reply_json status_code fst snd store outbox log flashed].
  - destruct (lacks "invoice_url" v) as [[|]|e];
      [| destruct (get v "invoice_url") as [u|e] |];
      cbn; repeat split; eauto 10.
  - cbn; repeat split; eauto 10.
  - cbn; repeat split; eauto 10.
Qed.

Lemma occurs_nonempty k s : occurs k s = true -> k <> EmptyString -> s <> EmptyString.
Proof.
  intros H Hk Hs. subst s. destruct k; [congruence | discriminate H].
Qed.

(** X2. The presence test of [create_order] is Python's [in]: a body that
    is a JSON string with the text [product_id] in it, or a JSON array
    with the element ["product_id"], passes it, and the subscript that
    follows raises [TypeError]. The answer is 500, not 400; nothing is
    written. *)
Theorem create_order_body_not_an_object (env : Env) (request : Request)
    (rnd : nat -> nat) (now : datetime) (w : World) :
  (exists s, json_body request = Some (JStr s) /\ occurs "product_id" s = true)
  \/ (exists l, json_body request = Some (JArr l)
                /\ existsb (is_str "product_id") l = true) ->
  create_order env request rnd now w =
    (Ok (mkResponse 500 (jsonify1 "error" (JStr "Internal server error"))),
     mkWorld (store w) (outbox w)
       (log w ++ [(ERROR, [Lit "Error in create_order: "; Exc TypeError])])
       (flashed w)).
Proof.
  intros [[s [Hbody Hocc]] | [l [Hbody Hin]]];
    unfold create_order, try_except, bind, get_json, lift, logger, ret;
    rewrite Hbody; cbn [fst snd]; unfold lacks, truthy, contains.
  - assert (Hs : (s =? EmptyString) = false).
    { apply String.eqb_neq. apply (occurs_nonempty "product_id"); [assumption|].
      discriminate. }
    rewrite Hs, Hocc. reflexivity.
  - rewrite Hin. destruct l; [discriminate Hin | reflexivity].
Qed.

Lemma create_order_body_not_an_object_witness :
  create_order Demo.env
    (mkRequest None EmptyString (Some (JStr "my product_id is 1")))
    Demo.rnd Demo.t0 (Demo.world [])
  = (Ok (mkResponse 500 (jsonify1 "error" (JStr "Internal server error"))),
     mkWorld (store (Demo.world [])) []
       ([] ++ [(ERROR, [Lit "Error in create_order: "; Exc TypeError])]) []).
Proof.
  apply (create_order_body_not_an_object Demo.env
           (mkRequest None EmptyString (Some (JStr "my product_id is 1")))
           Demo.rnd Demo.t0 (Demo.world [])).
  left. exists "my product_id is 1". split; reflexivity.
Defined.

(** ** Cancelling, again *)



(** ** Notifications that change nothing, and what a change requires *)

Lemma validate_ipn_true_signed env request w :
  fst (validate_ipn env request w) = Ok true -> signed env request.
Proof.
  rewrite validate_ipn_run. cbn [fst]. unfold compare_digest, signed.
  destruct (sig_header request) as [s|]; [|discriminate].
  destruct (is_ascii s && is_ascii (expected_sig env request)); [|discriminate].
  intros H. inversion H as [E]. apply String.eqb_eq in E. subst s. reflexivity.
Qed.

(** X4. [validate_ipn] answers true exactly for the requests whose header
    is the hexadecimal HMAC of the raw body under the shared secret. *)
Theorem validate_ipn_accepts_iff_signed (env : Env) (request : Request) (w : World) :
  fst (validate_ipn env request w) = Ok true <-> signed env request.
Proof.
  split.
  - apply validate_ipn_true_signed.
  - intros H. rewrite (validate_ipn_signed env request w H). reflexivity.
Qed.

(** What [ipn] does with a signed request whose body is a JSON object. *)
Lemma ipn_signed_object_run env request now w d :
  signed env request ->
  json_body request = Some (JObj d) ->
  eq_str (match assoc "payment_status" d with Some x => x | None => JNull end)
         "finished" = false ->
  ipn env request now w = (Ok (OK (Plain "OK")), w).
Proof.
  intros Hsig Hbody Hst.
  unfold ipn, bind. rewrite (validate_ipn_signed _ _ _ Hsig). cbn [negb].
  unfold get_json. rewrite Hbody. unfold ret, lift, get. rewrite Hst. reflexivity.
Qed.

(** X5. A signed notification whose [payment_status] is absent or is not
    ['finished'] is answered 200 [OK] and leaves the whole world as it
    was: no order changes, nothing is sent or logged. *)
Theorem ipn_other_status_ignored (env : Env) (request : Request) (now : datetime)
    (w : World) (d : list (string * json)) :
  signed env request ->
  json_body request = Some (JObj d) ->
  assoc "payment_status" d <> Some (JStr "finished") ->
  ipn env request now w = (Ok (OK (Plain "OK")), w).
Proof.
  intros Hsig Hbody Hst.
  apply (ipn_signed_object_run env request now w d Hsig Hbody).
  destruct (assoc "payment_status" d) as [v|]; [|reflexivity].
  destruct v as [| b | n | x | s | l | d']; try reflexivity.
  unfold eq_str, is_str. apply String.eqb_neq. intros E. subst s. congruence.
Qed.

Lemma ipn_other_status_ignored_witness :
  let request :=
    let unsigned :=
      mkRequest None "expired:B-QX7K2M-090324"
        (Some (JObj [("payment_status", JStr "expired");
                     ("order_id", JStr "B-QX7K2M-090324")])) in
    mkRequest (Some (expected_sig Demo.env unsigned)) (get_data unsigned)
              (json_body unsigned) in
  ipn Demo.env request Demo.t1 (Demo.world [Demo.bot_order "pending"])
  = (Ok (OK (Plain "OK")), Demo.world [Demo.bot_order "pending"]).
Proof.
  cbv zeta.
  apply (ipn_other_status_ignored Demo.env _ Demo.t1
           (Demo.world [Demo.bot_order "pending"])
           [("payment_status", JStr "expired");
            ("order_id", JStr "B-QX7K2M-090324")]).
  - reflexivity.
  - reflexivity.
  - cbn. discriminate.
Defined.

Lemma update_paid_unknown oid now db :
  (forall o, In o (tbl_orders db) -> orders.order_id o <> oid) ->
  Sql.update_paid oid now db = db
  /\ Sql.select_user_identifier oid db = None.
Proof.
  intros H. split.
  - unfold Sql.update_paid, Sql.with_orders. rewrite (map_unmatched now oid _ H).
    destruct db; reflexivity.
  - unfold Sql.select_user_identifier.
    destruct (find _ (tbl_orders db)) as [o|] eqn:E; [|reflexivity].
    apply find_some in E. destruct E as [Hin Hid]. apply String.eqb_eq in Hid.
    exfalso. exact (H o Hin Hid).
Qed.

(** X6. A signed ['finished'] notification for an identifier that no
    stored order has is answered 200 [OK] all the same: storage and the
    outbox are unchanged, and the log says the order was marked paid. *)
Theorem ipn_unknown_order (env : Env) (request : Request) (now : datetime)
    (w : World) (oid : string) :
  signed env request ->
  finished_for request oid ->
  (forall o, In o (tbl_orders (store w)) -> orders.order_id o <> oid) ->
  ipn env request now w =
    (Ok (OK (Plain "OK")),
     mkWorld (store w) (outbox w)
       (log w ++ [(INFO, [Lit "Order "; Val (JStr oid); Lit " marked as paid"])])
       (flashed w)).
Proof.
  intros Hsig Hfin Hnone.
  rewrite (ipn_finished_run env request now w oid Hsig Hfin).
  destruct (update_paid_unknown oid now (store w) Hnone) as [Hdb Hsel].
  rewrite Hdb, Hsel. reflexivity.
Qed.

Lemma ipn_unknown_order_witness :
  ipn Demo.env (Demo.notification "B-ZZZZZZ-010124") Demo.t1
      (Demo.world [Demo.bot_order "pending"])
  = (Ok (OK (Plain "OK")),
     mkWorld (store (Demo.world [Demo.bot_order "pending"])) []
       ([] ++ [(INFO, [Lit "Order "; Val (JStr "B-ZZZZZZ-010124");
                       Lit " marked as paid"])]) []).
Proof.
  apply (ipn_unknown_order Demo.env (Demo.notification "B-ZZZZZZ-010124") Demo.t1
           (Demo.world [Demo.bot_order "pending"]) "B-ZZZZZZ-010124").
  - reflexivity.
  - exists [("payment_status", JStr "finished");
            ("order_id", JStr "B-ZZZZZZ-010124")].
    repeat split.
  - intros o [Ho | []]. subst o. cbn. discriminate.
Defined.

(** X7. For an order without buyer identifier, [if user_id:] still holds
    (the fetched row is not empty), so [ipn] asks Telegram to send the
    delivery choice to no chat. The order is marked paid either way; when
    Telegram refuses, the handler raises after the commit instead of
    answering. *)
Theorem ipn_order_without_buyer (env : Env) (request : Request) (now : datetime)
    (w : World) (o : orders.row) (l1 l2 : list orders.row) :
  signed env request ->
  finished_for request (orders.order_id o) ->
  only_order o l1 l2 (store w) ->
  orders.user_identifier o = None ->
  let out := ipn env request now w in
  let message := delivery_choice None (JStr (orders.order_id o)) in
  let paid := Sql.set_paid now o in
  tbl_orders (store (snd out)) = l1 ++ paid :: l2
  /\ orders.order_status paid = "paid"
  /\ orders.paid_at paid = Some now
  /\ (telegram_accepts env message = true ->
      fst out = Ok (OK (Plain "OK")) /\ outbox (snd out) = outbox w ++ [message])
  /\ (telegram_accepts env message = false ->
      fst out = Raise TelegramError /\ outbox (snd out) = outbox w).
Proof.
  intros Hsig Hfin Honly Hnone out message paid. subst out.
  rewrite (ipn_finished_only_run env request now w o l1 l2 Hsig Hfin Honly).
  destruct (update_paid_only now o l1 l2 (store w) Honly) as [Htbl _].
  rewrite Hnone. fold message.
  destruct (telegram_accepts env message); cbn [fst snd store outbox];
    (split; [exact Htbl|]; split; [reflexivity|]; split; [reflexivity|];
     split; intros H; try discriminate H; split; reflexivity).
Qed.

Lemma ipn_order_without_buyer_witness :
  let o := Demo.web_order "pending" in
  let out := ipn Demo.env (Demo.notification "W-4BIPW3-090324") Demo.t1
                 (Demo.world [o]) in
  let message := delivery_choice None (JStr (orders.order_id o)) in
  let paid := Sql.set_paid Demo.t1 o in
  tbl_orders (store (snd out)) = [] ++ paid :: []
  /\ orders.order_status paid = "paid"
  /\ orders.paid_at paid = Some Demo.t1
  /\ (telegram_accepts Demo.env message = true ->
      fst out = Ok (OK (Plain "OK")) /\ outbox (snd out) = [] ++ [message])
  /\ (telegram_accepts Demo.env message = false ->
      fst out = Raise TelegramError /\ outbox (snd out) = []).
Proof.
  apply (ipn_order_without_buyer Demo.env (Demo.notification "W-4BIPW3-090324")
           Demo.t1 (Demo.world [Demo.web_order "pending"])
           (Demo.web_order "pending") [] []).
  - reflexivity.
  - exists [("payment_status", JStr "finished");
            ("order_id", JStr "W-4BIPW3-090324")].
    repeat split.
  - split; [reflexivity | intros o' []].
  - reflexivity.
Defined.

(** X8. [ipn] changes storage only for a request that is signed and whose
    body is a JSON object with [payment_status] ['finished'] and an
    [order_id]: in every other case storage is what it was. *)
Theorem ipn_storage_change_requires (env : Env) (request : Request)
    (now : datetime) (w : World) :
  store (snd (ipn env request now w)) <> store w ->
  signed env request
  /\ exists d oid,
       json_body request = Some (JObj d)
       /\ assoc "payment_status" d = Some (JStr "finished")
       /\ assoc "order_id" d = Some oid.
Proof.
  intros Hch.
  destruct (validate_ipn env request w) as [r w0] eqn:Ev.
  assert (Hw0 : w0 = w) by (rewrite validate_ipn_run in Ev; congruence).
  subst w0.
  assert (Hsig : signed env request).
  { destruct r as [[|]|e].
    - apply (validate_ipn_true_signed env request w). rewrite Ev. reflexivity.
    - exfalso. apply Hch. unfold ipn, bind. rewrite Ev. reflexivity.
    - exfalso. apply Hch. unfold ipn, bind. rewrite Ev. reflexivity. }
  split; [exact Hsig|].
  revert Hch. unfold ipn, bind. rewrite (validate_ipn_signed _ _ _ Hsig).
  cbn [negb]. unfold get_json.
  destruct (json_body request) as [data|]; [|intros H; exfalso; apply H; reflexivity].
  unfold ret, lift, get.
  destruct data as [| b | n | x | s | l | d];
    try (intros H; exfalso; apply H; reflexivity).
  destruct (eq_str (match assoc "payment_status" d with
                    | Some x => x | None => JNull end) "finished") eqn:Est;
    [| intros H; exfalso; apply H; reflexivity].
  unfold subscript.
  destruct (assoc "order_id" d) as [oid|] eqn:Eid;
    [| intros H; exfalso; apply H; reflexivity].
  intros _. exists d, oid. repeat split; try assumption.
  destruct (assoc "payment_status" d) as [v|]; [|discriminate Est].
  destruct v; try discriminate Est.
  unfold eq_str, is_str in Est. apply String.eqb_eq in Est. subst. reflexivity.
Qed.

Lemma ipn_storage_change_requires_witness :
  let request := Demo.notification "B-QX7K2M-090324" in
  signed Demo.env request
  /\ exists d oid,
       json_body request = Some (JObj d)
       /\ assoc "payment_status" d = Some (JStr "finished")
       /\ assoc "order_id" d = Some oid.
Proof.
  apply (ipn_storage_change_requires Demo.env (Demo.notification "B-QX7K2M-090324")
           Demo.t1 (Demo.world [Demo.bot_order "pending"])).
  intros H.
  apply (f_equal (fun db => map orders.order_status (tbl_orders db))) in H.
  vm_compute in H. discriminate H.
Defined.

(** X9. Once a signed notification has marked the one order with its
    identifier paid, [POST /cancel-order/<id>] for it answers 404 and
    leaves the world as the notification left it: a paid order cannot be
    cancelled. *)
Theorem cancel_after_payment (env : Env) (request : Request) (now : datetime)
    (w : World) (o : orders.row) (l1 l2 : list orders.row) :
  signed env request ->
  finished_for request (orders.order_id o) ->
  only_order o l1 l2 (store w) ->
  let w1 := snd (ipn env request now w) in
  cancel_order (orders.order_id o) w1 =
    (Ok (mkResponse 404
           (jsonify1 "error" (JStr "Order not found or not cancellable"))),
     w1).
Proof.
  intros Hsig Hfin Honly w1.
  assert (Htbl : tbl_orders (store w1) = l1 ++ Sql.set_paid now o :: l2).
  { subst w1.
    rewrite (ipn_finished_only_run env request now w o l1 l2 Hsig Hfin Honly).
    destruct (update_paid_only now o l1 l2 (store w) Honly) as [Htbl _].
    destruct (telegram_accepts env _); exact Htbl. }
  rewrite cancel_order_run.
  destruct (0 <? fst (Sql.update_cancelled (orders.order_id o) (store w1)))%nat
    eqn:E; [|reflexivity].
  exfalso. apply rowcount_pending in E.
  destruct E as [o' [Hin [Hid Hst]]]. rewrite Htbl in Hin.
  destruct Honly as [_ Huniq].
  apply in_app_or in Hin. destruct Hin as [Hin | [Heq | Hin]].
  - apply (Huniq o'); [apply in_or_app; left; assumption | assumption].
  - subst o'. discriminate Hst.
  - apply (Huniq o'); [apply in_or_app; right; assumption | assumption].
Qed.

Lemma cancel_after_payment_witness :
  let w1 := snd (ipn Demo.env (Demo.notification "B-QX7K2M-090324") Demo.t1
                     (Demo.world [Demo.bot_order "pending"])) in
  cancel_order (orders.order_id (Demo.bot_order "pending")) w1 =
    (Ok (mkResponse 404
           (jsonify1 "error" (JStr "Order not found or not cancellable"))),
     w1).
Proof.
  apply (cancel_after_payment Demo.env (Demo.notification "B-QX7K2M-090324")
           Demo.t1 (Demo.world [Demo.bot_order "pending"])
           (Demo.bot_order "pending") [] []).
  - reflexivity.
  - exists [("payment_status", JStr "finished");
            ("order_id", JStr "B-QX7K2M-090324")].
    repeat split.
  - split; [reflexivity | intros o' []].
Defined.

(** ** The invoice's callback address *)

Lemma replace_from_skip old new skip s :
  String.length s <= skip -> replace_from old new skip s = EmptyString.
Proof.
  revert skip. induction s as [|c s IH]; intros skip H; [reflexivity|].
  cbn [String.length] in H. destruct skip as [|k]; [lia|].
  cbn [replace_from]. apply IH. lia.
Qed.

Lemma prefix_refl s : prefix s s = true.
Proof.
  induction s as [|c s IH]; [reflexivity|].
  cbn [prefix]. destruct (ascii_dec c c); [assumption | congruence].
Qed.

Lemma append_empty s : (s ++ EmptyString)%string = s.
Proof. induction s as [|c s IH]; [reflexivity | cbn; rewrite IH; reflexivity]. Qed.

Lemma replace_at_end old new base :
  old <> EmptyString ->
  early_match old base = false ->
  replace old new (base ++ old) = (base ++ new)%string.
Proof.
  intros Hold. unfold replace.
  induction base as [|c base IH]; intros H.
  - cbn [append]. destruct old as [|a old']; [congruence|].
    cbn [replace_from]. rewrite prefix_refl.
    rewrite replace_from_skip by (cbn [String.length]; lia).
    apply append_empty.
  - cbn [early_match] in H. apply orb_false_elim in H. destruct H as [Hp He].
    change ((String c base ++ old)%string) with (String c (base ++ old)) in *.
    cbn [replace_from]. rewrite Hp. cbn [append]. rewrite (IH He). reflexivity.
Qed.

Lemma replace_absent old new s :
  occurs old s = false -> replace old new s = s.
Proof.
  unfold replace. induction s as [|c s IH]; intros H; [reflexivity|].
  cbn [occurs] in H. apply orb_false_elim in H. destruct H as [Hp Ho].
  cbn [replace_from]. rewrite Hp, (IH Ho). reflexivity.
Qed.

(** X10. When [WEBHOOK_URL] ends in [/bot-webhook], with no earlier
    occurrence of it, the invoice [create_invoice] asks for carries the
    callback address with [/ipn] in its place, the amount in USD, the order
    identifier and the coin; what the processor answers to that request is
    what [create_invoice] returns or raises. *)
Theorem create_invoice_callback (env : Env) (price : option pyfloat)
    (order_id coin base : string) (w : World) :
  WEBHOOK_URL env = (base ++ "/bot-webhook")%string ->
  early_match "/bot-webhook" base = false ->
  fst (create_invoice env price order_id coin w) =
    match
      nowpayments env
        (invoice_request env price order_id coin (base ++ "/ipn")%string)
    with
    | Ok response => reply_json response
    | Raise e => Raise e
    end.
Proof.
  intros Hurl Hearly. rewrite create_invoice_run, Hurl.
  rewrite (replace_at_end "/bot-webhook" "/ipn" base) by (assumption || discriminate).
  unfold invoice_request. destruct (nowpayments env _); reflexivity.
Qed.

Lemma create_invoice_callback_witness :
  fst (create_invoice Demo.env (Some (Fin (999 # 100))) "W-4BIPW3-090324" "BTC"
         (Demo.world [])) =
    match
      nowpayments Demo.env
        (invoice_request Demo.env (Some (Fin (999 # 100))) "W-4BIPW3-090324" "BTC"
           ("https://shop.example" ++ "/ipn")%string)
    with
    | Ok response => reply_json response
    | Raise e => Raise e
    end.
Proof.
  apply (create_invoice_callback Demo.env (Some (Fin (999 # 100)))
           "W-4BIPW3-090324" "BTC" "https://shop.example" (Demo.world []));
    reflexivity.
Defined.

(** X11. When [/bot-webhook] does not occur in [WEBHOOK_URL], the
    replacement changes nothing: the callback address of the invoice is
    [WEBHOOK_URL] itself, not an [/ipn] address. *)
Theorem create_invoice_callback_unchanged (env : Env) (price : option pyfloat)
    (order_id coin : string) (w : World) :
  occurs "/bot-webhook" (WEBHOOK_URL env) = false ->
  fst (create_invoice env price order_id coin w) =
    match
      nowpayments env (invoice_request env price order_id coin (WEBHOOK_URL env))
    with
    | Ok response => reply_json response
    | Raise e => Raise e
    end.
Proof.
  intros H. rewrite create_invoice_run, (replace_absent _ _ _ H).
  unfold invoice_request. destruct (nowpayments env _); reflexivity.
Qed.

Lemma create_invoice_callback_unchanged_witness :
  let env :=
    mkEnv "api-key" "ipn-secret" "https://shop.example/hook" None
      (hmac_sha512 Demo.env) (nowpayments Demo.env) (telegram_accepts Demo.env)
      (coerce_id Demo.env) (coerce_text Demo.env) (unicode_decimal Demo.env) in
  fst (create_invoice env (Some (Fin (999 # 100))) "W-4BIPW3-090324" "BTC"
         (Demo.world [])) =
    match
      nowpayments env
        (invoice_request env (Some (Fin (999 # 100))) "W-4BIPW3-090324" "BTC"
           (WEBHOOK_URL env))
    with
    | Ok response => reply_json response
    | Raise e => Raise e
    end.
Proof.
  cbv zeta.
  apply (create_invoice_callback_unchanged
           (mkEnv "api-key" "ipn-secret" "https://shop.example/hook" None
              (hmac_sha512 Demo.env) (nowpayments Demo.env)
              (telegram_accepts Demo.env) (coerce_id Demo.env)
              (coerce_text Demo.env) (unicode_decimal Demo.env))
           (Some (Fin (999 # 100))) "W-4BIPW3-090324" "BTC" (Demo.world [])).
  reflexivity.
Defined.

(** ** Relaying delivery details *)

(** What [submit_delivery] does with a body that has the three fields. *)
Lemma submit_delivery_sends env request w d order_id method details :
  json_body request = Some (JObj d) ->
  assoc "order_id" d = Some order_id ->
  assoc "method" d = Some method ->
  assoc "details" d = Some details ->
  let message :=
    mkMessage (ADMIN_CHAT_ID env)
      [Lit "New Order: "; Val order_id; Lit newline; Lit "Delivery: ";
       Val method; Lit " ("; Val details; Lit ")"] [] in
  submit_delivery env request w =
    if telegram_accepts env message
    then (Ok (OK (jsonify1 "success" (JBool true))),
          mkWorld (store w) (outbox w ++ [message]) (log w) (flashed w))
    else (Ok (mkResponse 500 (jsonify1 "error" (JStr "Internal server error"))),
          mkWorld (store w) (outbox w)
            (log w ++ [(ERROR, [Lit "Error in submit_delivery: "; Exc TelegramError])])
            (flashed w)).
Proof.
  intros Hbody Ho Hm Hd message.
  unfold submit_delivery, try_except, bind, get_json, lift, logger, ret,
    send_message.
  rewrite Hbody. cbn [fst snd]. unfold subscript. rewrite Ho, Hm, Hd.
  fold message. destruct (telegram_accepts env message); reflexivity.
Qed.

(** X12. With [order_id], [method] and [details] in the body,
    [POST /submit-delivery] sends the operator one message that carries
    the three values and answers 200 when Telegram takes it; when Telegram
    refuses, the answer is 500 and nothing is sent. Storage is not read:
    the order need not exist. *)
Theorem submit_delivery_relays (env : Env) (request : Request) (w : World)
    (d : list (string * json)) (order_id method details : json) :
  json_body request = Some (JObj d) ->
  assoc "order_id" d = Some order_id ->
  assoc "method" d = Some method ->
  assoc "details" d = Some details ->
  let message :=
    mkMessage (ADMIN_CHAT_ID env)
      [Lit "New Order: "; Val order_id; Lit newline; Lit "Delivery: ";
       Val method; Lit " ("; Val details; Lit ")"] [] in
  submit_delivery env request w =
    if telegram_accepts env message
    then (Ok (OK (jsonify1 "success" (JBool true))),
          mkWorld (store w) (outbox w ++ [message]) (log w) (flashed w))
    else (Ok (mkResponse 500 (jsonify1 "error" (JStr "Internal server error"))),
          mkWorld (store w) (outbox w)
            (log w ++ [(ERROR, [Lit "Error in submit_delivery: "; Exc TelegramError])])
            (flashed w)).
Proof.
  exact (submit_delivery_sends env request w d order_id method details).
Qed.

Lemma submit_delivery_relays_witness :
  let d := [("order_id", JStr "W-4BIPW3-090324"); ("method", JStr "email");
            ("details", JStr "me@example.org")] in
  let message :=
    mkMessage (ADMIN_CHAT_ID Demo.env)
      [Lit "New Order: "; Val (JStr "W-4BIPW3-090324"); Lit newline;
       Lit "Delivery: "; Val (JStr "email"); Lit " ("; Val (JStr "me@example.org");
       Lit ")"] [] in
  submit_delivery Demo.env (mkRequest None EmptyString (Some (JObj d)))
    (Demo.world []) =
    if telegram_accepts Demo.env message
    then (Ok (OK (jsonify1 "success" (JBool true))),
          mkWorld (store (Demo.world [])) ([] ++ [message]) [] [])
    else (Ok (mkResponse 500 (jsonify1 "error" (JStr "Internal server error"))),
          mkWorld (store (Demo.world [])) []
            ([] ++ [(ERROR, [Lit "Error in submit_delivery: "; Exc TelegramError])])
            []).
Proof.
  cbv zeta.
  apply (submit_delivery_relays Demo.env _ (Demo.world [])
           [("order_id", JStr "W-4BIPW3-090324"); ("method", JStr "email");
            ("details", JStr "me@example.org")]);
    reflexivity.
Defined.

(** X13. [POST /submit-delivery] never raises and never writes to storage:
    every request is answered 200 or 500, and the outbox is as before or
    has one more message, addressed to the operator's chat. *)
Theorem submit_delivery_always_answers (env : Env) (request : Request) (w : World) :
  let out := submit_delivery env request w in
  (exists r, fst out = Ok r /\ (status r = 200 \/ status r = 500)%Z)
  /\ store (snd out) = store w
  /\ (outbox (snd out) = outbox w
      \/ exists m, chat_id m = ADMIN_CHAT_ID env
                   /\ outbox (snd out) = outbox w ++ [m]).
Proof.
  cbv zeta.
  unfold submit_delivery, try_except, bind, get_json, lift, logger, ret, raise,
    send_message.
  destruct (json_body request) as [data|]; [| cbn; repeat split; eauto 10].
  destruct (subscript data "order_id") as [o|e]; [| cbn; repeat split; eauto 10].
  destruct (subscript data "method") as [m|e]; [| cbn; repeat split; eauto 10].
  destruct (subscript data "details") as [dt|e]; [| cbn; repeat split; eauto 10].
  cbn [fst snd].
  destruct (telegram_accepts env _); cbn [fst snd store outbox].
  - split; [eexists; split; [reflexivity | left; reflexivity]|].
    split; [reflexivity|]. right. eexists. split. 2: reflexivity. reflexivity.
  - cbn. repeat split; eauto 10.
Qed.

(** ** Reading an order's status *)

Lemma order_status_run oid w :
  order_status oid w =
  (match Query.select_order_status oid (store w) with
   | Some st => Ok (OK (jsonify1 "status" (JStr st)))
   | None => Ok (mkResponse 404 (jsonify1 "status" (JStr "not found")))
   end, w).
Proof.
  unfold order_status, try_except, bind, getconn, putconn, ret. cbn [fst snd].
  destruct (Query.select_order_status oid (store w)); reflexivity.
Qed.

Lemma select_order_status_first oid db l1 o l2 :
  tbl_orders db = l1 ++ o :: l2 ->
  (forall o', In o' l1 -> orders.order_id o' <> oid) ->
  orders.order_id o = oid ->
  Query.select_order_status oid db = Some (orders.order_status o).
Proof.
  intros Htbl Hl1 Hid. unfold Query.select_order_status. rewrite Htbl.
  clear Htbl. induction l1 as [|a l1 IH]; cbn [app find].
  - rewrite Hid, String.eqb_refl. reflexivity.
  - assert (Ha : (orders.order_id a =? oid) = false)
      by (apply String.eqb_neq, Hl1; left; reflexivity).
    rewrite Ha. apply IH. intros o' Ho'. apply Hl1. right. assumption.
Qed.



(** The storage [create_order] leaves once the product is found. *)
Lemma create_order_found_store env request rnd now w d product_id k price :
  json_body request = Some (JObj d) ->
  assoc "product_id" d = Some product_id ->
  id_param env product_id = Bound k ->
  Sql.select_price k (store w) = Some price ->
  store (snd (create_order env request rnd now w)) =
    Sql.insert_order k price None (generate_order_id "W" rnd now) EmptyString now
      (store w).
Proof.
  intros Hbody Hkey Hid Hprice.
  rewrite (create_order_found env request rnd now w d product_id k price)
    by assumption.
  set (oid := generate_order_id "W" rnd now). clearbody oid.
  unfold try_except, bind. rewrite create_invoice_run.
  destruct (nowpayments env _) as [[sc [v|e]]|e];
    cbn [reply_json status_code]; unfold lift, logger, ret;
    [destruct (lacks "invoice_url" v) as [[|]|e];
       [| destruct (get v "invoice_url") |] | |];
    reflexivity.
Qed.

(** X15. After [POST /create-order] for a product that exists, whatever
    the payment processor answered, [GET /order-status/<id>] for the new
    identifier answers [pending], provided no order stored before had
    that identifier. *)
Theorem order_status_after_create (env : Env) (request : Request)
    (rnd : nat -> nat) (now : datetime) (w : World)
    (d : list (string * json)) (product_id : json) (k : Z)
    (price : option pyfloat) :
  json_body request = Some (JObj d) ->
  assoc "product_id" d = Some product_id ->
  id_param env product_id = Bound k ->
  Sql.select_price k (store w) = Some price ->
  (forall o, In o (tbl_orders (store w)) ->
             orders.order_id o <> generate_order_id "W" rnd now) ->
  let w1 := snd (create_order env request rnd now w) in
  order_status (generate_order_id "W" rnd now) w1 =
    (Ok (OK (jsonify1 "status" (JStr "pending"))), w1).
Proof.
  intros Hbody Hkey Hid Hprice Hfresh w1.
  rewrite order_status_run.
  rewrite (select_order_status_first (generate_order_id "W" rnd now) (store w1)
             (tbl_orders (store w))
             (orders.mk k price None (generate_order_id "W" rnd now) EmptyString
                "pending" now None) []).
  - reflexivity.
  - subst w1.
    rewrite (create_order_found_store env request rnd now w d product_id k price)
      by assumption.
    reflexivity.
  - exact Hfresh.
  - reflexivity.
Qed.

Lemma order_status_after_create_witness :
  let w1 := snd (create_order Demo.env (Demo.order_request 1) Demo.rnd Demo.t0
                   (Demo.world [])) in
  order_status (generate_order_id "W" Demo.rnd Demo.t0) w1 =
    (Ok (OK (jsonify1 "status" (JStr "pending"))), w1).
Proof.
  apply (order_status_after_create Demo.env (Demo.order_request 1) Demo.rnd
           Demo.t0 (Demo.world []) [("product_id", JInt 1)] (JInt 1) 1
           (Some (Fin (999 # 100)))); try reflexivity.
  intros o [].
Defined.

(** X16. After a signed ['finished'] notification for the one order with
    its identifier, [GET /order-status/<id>] answers [paid], also when the
    notification of the buyer failed. *)
Theorem order_status_after_payment (env : Env) (request : Request)
    (now : datetime) (w : World) (o : orders.row) (l1 l2 : list orders.row) :
  signed env request ->
  finished_for request (orders.order_id o) ->
  only_order o l1 l2 (store w) ->
  let w1 := snd (ipn env request now w) in
  order_status (orders.order_id o) w1 =
    (Ok (OK (jsonify1 "status" (JStr "paid"))), w1).
Proof.
  intros Hsig Hfin Honly w1.
  assert (Htbl : tbl_orders (store w1) = l1 ++ Sql.set_paid now o :: l2).
  { subst w1.
    rewrite (ipn_finished_only_run env request now w o l1 l2 Hsig Hfin Honly).
    destruct (update_paid_only now o l1 l2 (store w) Honly) as [Htbl _].
    destruct (telegram_accepts env _); exact Htbl. }
  rewrite order_status_run.
  rewrite (select_order_status_first (orders.order_id o) (store w1) l1
             (Sql.set_paid now o) l2 Htbl).
  - reflexivity.
  - destruct Honly as [_ Huniq]. intros o' Ho'.
    apply Huniq, in_or_app. left. assumption.
  - reflexivity.
Qed.

Lemma order_status_after_payment_witness :
  let w1 := snd (ipn Demo.env (Demo.notification "W-4BIPW3-090324") Demo.t1
                     (Demo.world [Demo.web_order "pending"])) in
  order_status (orders.order_id (Demo.web_order "pending")) w1 =
    (Ok (OK (jsonify1 "status" (JStr "paid"))), w1).
Proof.
  apply (order_status_after_payment Demo.env (Demo.notification "W-4BIPW3-090324")
           Demo.t1 (Demo.world [Demo.web_order "pending"])
           (Demo.web_order "pending") [] []).
  - reflexivity.
  - exists [("payment_status", JStr "finished");
            ("order_id", JStr "W-4BIPW3-090324")].
    repeat split.
  - split; [reflexivity | intros o' []].
Defined.

Lemma map_not_cancellable oid l :
  (forall o, In o l -> orders.order_id o <> oid) ->
  map (fun o => if Sql.cancellable oid o
                then Sql.set_status "cancelled" o else o) l = l.
Proof.
  induction l as [|a l IH]; intros H; [reflexivity|].
  cbn [map]. rewrite IH by (intros o Ho; apply H; right; assumption).
  assert (Ha : Sql.cancellable oid a = false).
  { unfold Sql.cancellable.
    assert (E : (orders.order_id a =? oid) = false)
      by (apply String.eqb_neq, H; left; reflexivity).
    rewrite E. reflexivity. }
  rewrite Ha. reflexivity.
Qed.

(** X17. Cancelling the one order with its identifier while it is
    [pending] answers 200, and [GET /order-status/<id>] answers
    [cancelled] afterwards; every other order is as it was. *)
Theorem order_status_after_cancel (w : World) (o : orders.row)
    (l1 l2 : list orders.row) :
  only_order o l1 l2 (store w) ->
  orders.order_status o = "pending" ->
  let out := cancel_order (orders.order_id o) w in
  fst out = Ok (OK (jsonify1 "success" (JBool true)))
  /\ tbl_orders (store (snd out)) = l1 ++ Sql.set_status "cancelled" o :: l2
  /\ order_status (orders.order_id o) (snd out) =
       (Ok (OK (jsonify1 "status" (JStr "cancelled"))), snd out).
Proof.
  intros [Htbl Huniq] Hst out. subst out.
  assert (Hpend : pending_order (orders.order_id o) (store w)).
  { exists o. rewrite Htbl. split; [apply in_or_app; right; left; reflexivity|].
    split; [reflexivity | assumption]. }
  rewrite cancel_order_run.
  rewrite (proj2 (rowcount_pending _ _) Hpend). cbn [fst snd store].
  assert (Hnew : tbl_orders (snd (Sql.update_cancelled (orders.order_id o) (store w)))
                 = l1 ++ Sql.set_status "cancelled" o :: l2).
  { unfold Sql.update_cancelled, Sql.with_orders. cbn [snd tbl_orders].
    rewrite Htbl, map_app. cbn [map].
    assert (Hc : Sql.cancellable (orders.order_id o) o = true)
      by (apply cancellable_spec; split; [reflexivity | assumption]).
    rewrite Hc, !map_not_cancellable; [reflexivity | |];
      intros o' Ho'; apply Huniq, in_or_app; [right | left]; assumption. }
  split; [reflexivity|]. split; [exact Hnew|].
  rewrite order_status_run. cbn [store].
  rewrite (select_order_status_first (orders.order_id o) _ l1
             (Sql.set_status "cancelled" o) l2 Hnew).
  - reflexivity.
  - intros o' Ho'. apply Huniq, in_or_app. left. assumption.
  - reflexivity.
Qed.

Lemma order_status_after_cancel_witness :
  let o := Demo.web_order "pending" in
  let out := cancel_order (orders.order_id o) (Demo.world [o]) in
  fst out = Ok (OK (jsonify1 "success" (JBool true)))
  /\ tbl_orders (store (snd out)) = [] ++ Sql.set_status "cancelled" o :: []
  /\ order_status (orders.order_id o) (snd out) =
       (Ok (OK (jsonify1 "status" (JStr "cancelled"))), snd out).
Proof.
  apply (order_status_after_cancel (Demo.world [Demo.web_order "pending"])
           (Demo.web_order "pending") [] []).
  - split; [reflexivity | intros o' []].
  - reflexivity.
Defined.

(** ** The operator's catalogue *)

Lemma delete_product_run pid w :
  delete_product pid w =
  (Ok (mkResponse 302 (Redirect "admin_panel")),
   mkWorld (Query.delete_products pid (store w)) (outbox w) (log w)
           (flashed w ++ ["Product deleted"])).
Proof. reflexivity. Qed.

(** X18. [GET /admin/delete/<id>] removes every product with that
    identifier and no other, touches no order (the orders of a deleted
    product stay), and always flashes [Product deleted] and redirects,
    also when no product had the identifier, in which case storage is as
    it was. *)
Theorem delete_product_removes (pid : Z) (w : World) :
  let out := delete_product pid w in
  fst out = Ok (mkResponse 302 (Redirect "admin_panel"))
  /\ (forall p, In p (tbl_products (store (snd out)))
                <-> In p (tbl_products (store w)) /\ products.id p <> pid)
  /\ tbl_orders (store (snd out)) = tbl_orders (store w)
  /\ flashed (snd out) = flashed w ++ ["Product deleted"]
  /\ ((forall p, In p (tbl_products (store w)) -> products.id p <> pid) ->
      store (snd out) = store w).
Proof.
  cbv zeta. rewrite delete_product_run. cbn [fst snd store flashed].
  unfold Query.delete_products. cbn [tbl_products tbl_orders].
  split; [reflexivity|]. split.
  { intros p. rewrite filter_In, negb_true_iff, Z.eqb_neq. reflexivity. }
  split; [reflexivity|]. split; [reflexivity|].
  intros H.
  assert (E : filter (fun p => negb (products.id p =? pid)%Z)
                (tbl_products (store w)) = tbl_products (store w)).
  { induction (tbl_products (store w)) as [|a l IH]; [reflexivity|].
    cbn [filter].
    assert (Ha : (products.id a =? pid)%Z = false)
      by (apply Z.eqb_neq, H; left; reflexivity).
    rewrite Ha. cbn [negb]. f_equal. apply IH.
    intros p Hp. apply H. right. assumption. }
  rewrite E. destruct (store w); reflexivity.
Qed.

(** X19. Once a product is deleted, [POST /create-order] for its
    identifier answers 404 and writes nothing. *)
Theorem create_order_after_delete (env : Env) (request : Request)
    (rnd : nat -> nat) (now : datetime) (w : World)
    (d : list (string * json)) (pid : Z) :
  json_body request = Some (JObj d) ->
  assoc "product_id" d = Some (JInt pid) ->
  let w1 := snd (delete_product pid w) in
  create_order env request rnd now w1 =
    (Ok (mkResponse 404 (jsonify1 "error" (JStr "Product not found"))), w1).
Proof.
  intros Hbody Hkey w1.
  unfold create_order, try_except, bind, get_json, lift, getconn, putconn, ret.
  rewrite Hbody. cbn [fst snd].
  rewrite (lacks_key_present _ _ _ Hkey).
  unfold subscript. rewrite Hkey.
  assert (Hnone : fetch_price env (JInt pid) (store w1) = Ok None).
  { apply fetch_price_int. intros p Hp. subst w1.
    rewrite delete_product_run in Hp. cbn [snd store] in Hp.
    unfold Query.delete_products in Hp. cbn [tbl_products] in Hp.
    apply filter_In in Hp. destruct Hp as [_ Hp].
    apply negb_true_iff, Z.eqb_neq in Hp. assumption. }
  rewrite Hnone. reflexivity.
Qed.

Lemma create_order_after_delete_witness :
  let w1 := snd (delete_product 1 (Demo.world [])) in
  create_order Demo.env (Demo.order_request 1) Demo.rnd Demo.t0 w1 =
    (Ok (mkResponse 404 (jsonify1 "error" (JStr "Product not found"))), w1).
Proof.
  apply (create_order_after_delete Demo.env (Demo.order_request 1) Demo.rnd
           Demo.t0 (Demo.world []) [("product_id", JInt 1)] 1);
    reflexivity.
Defined.

(** X20. [/admin] redirects to the panel exactly for a POST whose password
    is the configured one, which is [admin123] when the variable
    [ADMIN_PASSWORD] is not set; every other request gets the login page,
    with [Invalid password] flashed exactly when it was a POST. Storage is
    never touched. *)
Theorem admin_login (configured : option string) (m : http_method)
    (password : option string) (w : World) :
  let out := admin configured m password w in
  let expected := match configured with Some v => v | None => "admin123" end in
  (fst out = Ok (mkResponse 302 (Redirect "admin_panel"))
   <-> m = POST /\ password = Some expected)
  /\ (fst out = Ok (mkResponse 302 (Redirect "admin_panel")) -> snd out = w)
  /\ (fst out <> Ok (mkResponse 302 (Redirect "admin_panel")) ->
      fst out = Ok (OK (Template "admin_login.html"))
      /\ store (snd out) = store w
      /\ flashed (snd out) =
           match m with
           | POST => flashed w ++ ["Invalid password"]
           | GET => flashed w
           end).
Proof.
  cbv zeta. unfold admin, ADMIN_PASSWORD.
  set (expected := match configured with Some v => v | None => "admin123" end).
  destruct m.
  - cbn. split; [split; [discriminate | intros [H _]; discriminate H]|].
    split; [discriminate|]. intros _. repeat split.
  - destruct password as [p|].
    + destruct (p =? expected) eqn:E.
      * apply String.eqb_eq in E. subst p. cbn.
        split; [split; [intros _; split; reflexivity | reflexivity]|].
        split; [reflexivity|]. intros H. exfalso. apply H. reflexivity.
      * apply String.eqb_neq in E. cbn.
        split; [split; [discriminate | intros [_ H]; inversion H; congruence]|].
        split; [discriminate|]. intros _. repeat split.
    + cbn. split; [split; [discriminate | intros [_ H]; discriminate H]|].
      split; [discriminate|]. intros _. repeat split.
Qed.

Lemma add_product_run f w :
  add_product f w =
  if ProductForm.validate_on_submit f
  then (Ok (mkResponse 302 (Redirect "admin_panel")),
        mkWorld (Sql.insert_product (form_name f) (float_data (form_price f))
                   (form_description f) (form_image_url f) (store w))
                (outbox w) (log w) (flashed w ++ ["Product added successfully"]))
  else (Ok (OK (Template "add_product.html")), w).
Proof.
  destruct (ProductForm.validate_on_submit f) eqn:E.
  - apply add_product_accepted. assumption.
  - apply add_product_refused. assumption.
Qed.






Lemma NoDup_app_fresh (l : list Z) (k : Z) :
  NoDup l -> (forall x, In x l -> (x < k)%Z) -> NoDup (l ++ [k]).
Proof.
  intros Hnd Hlow. induction Hnd as [|a l Ha Hnd IH]; cbn [app].
  - constructor; [intros [] | constructor].
  - constructor.
    + intros Hin. apply in_app_or in Hin. destruct Hin as [Hin | [Hin | []]].
      * contradiction.
      * subst a. specialize (Hlow k (or_introl eq_refl)). lia.
    + apply IH. intros x Hx. apply Hlow. right. assumption.
Qed.

Lemma NoDup_map_filter (p : products.row -> bool) (l : list products.row) :
  NoDup (map products.id l) -> NoDup (map products.id (filter p l)).
Proof.
  induction l as [|a l IH]; intros H; [constructor|].
  cbn [map] in H. inversion H as [|x xs Hx Hnd]; subst.
  cbn [filter]. destruct (p a); [|apply IH; assumption].
  cbn [map]. constructor; [|apply IH; assumption].
  intros Hin. apply Hx. apply in_map_iff in Hin. destruct Hin as [q [Hq Hin]].
  apply in_map_iff. exists q. split; [assumption|].
  apply filter_In in Hin. tauto.
Qed.

(** X23. The catalogue stays well keyed: when no two stored products share
    an identifier and all identifiers are below the next one, the same
    holds after [/admin/add] and after [/admin/delete/<id>], whatever was
    submitted; an added product never takes the identifier of a stored or
    of a deleted one. *)
Theorem catalogue_stays_well_keyed (f : FormRequest) (pid : Z) (w : World) :
  well_keyed (store w) ->
  well_keyed (store (snd (add_product f w)))
  /\ well_keyed (store (snd (delete_product pid w)))
  /\ (next_product_id (store w)
      <= next_product_id (store (snd (add_product f (snd (delete_product pid w))))))%Z.
Proof.
  intros [Hnd Hlow]. split; [|split].
  - rewrite add_product_run. destruct (ProductForm.validate_on_submit f);
      [| split; assumption].
    cbn [snd store]. unfold well_keyed, ids_below_next, Sql.insert_product.
    cbn [tbl_products next_product_id]. split.
    + rewrite map_app. cbn [map products.id]. apply NoDup_app_fresh; [assumption|].
      intros x Hx. apply in_map_iff in Hx. destruct Hx as [p [Hp Hin]]. subst x.
      apply Hlow. assumption.
    + intros p Hp. apply in_app_or in Hp. destruct Hp as [Hp | [Hp | []]].
      * specialize (Hlow p Hp). lia.
      * subst p. cbn [products.id]. lia.
  - rewrite delete_product_run. cbn [snd store].
    unfold well_keyed, ids_below_next, Query.delete_products.
    cbn [tbl_products next_product_id]. split.
    + apply NoDup_map_filter. assumption.
    + intros p Hp. apply filter_In in Hp. apply Hlow. tauto.
  - rewrite add_product_run, delete_product_run.
    destruct (ProductForm.validate_on_submit f); cbn; lia.
Qed.

Lemma catalogue_stays_well_keyed_witness :
  let w := Demo.world [] in
  well_keyed (store (snd (add_product Demo.paid_form w)))
  /\ well_keyed (store (snd (delete_product 1 w)))
  /\ (next_product_id (store w)
      <= next_product_id
           (store (snd (add_product Demo.paid_form (snd (delete_product 1 w))))))%Z.
Proof.
  apply (catalogue_stays_well_keyed Demo.paid_form 1 (Demo.world [])).
  split.
  - cbn. repeat constructor; cbn; intuition discriminate.
  - intros p [Hp | [Hp | []]]; subst p; reflexivity.
Defined.

(** ** The bot: buttons and the handlers they reach *)

Lemma split_on_cons sep s : exists part parts, split_on sep s = part :: parts.
Proof.
  induction s as [|c s [part [parts IH]]]; cbn [split_on]; [eauto|].
  destruct (Ascii.eqb c sep); [eauto|]. rewrite IH. eauto.
Qed.

Lemma join_split sep s : join (String sep EmptyString) (split_on sep s) = s.
Proof.
  induction s as [|c s IH]; [reflexivity|]. cbn [split_on].
  destruct (Ascii.eqb c sep) eqn:E.
  - apply Ascii.eqb_eq in E. subst c.
    destruct (split_on_cons sep s) as [part [parts Hs]]. rewrite Hs in *.
    rewrite <- IH. reflexivity.
  - destruct (split_on_cons sep s) as [part [parts Hs]]. rewrite Hs in *.
    rewrite <- IH. destruct parts; reflexivity.
Qed.

Lemma split_on_app sep a b :
  split_on sep (a ++ String sep b) = split_on sep a ++ split_on sep b.
Proof.
  induction a as [|c a IH]; cbn [append split_on].
  - rewrite Ascii.eqb_refl. reflexivity.
  - destruct (Ascii.eqb c sep); [rewrite IH; reflexivity|].
    rewrite IH. destruct (split_on_cons sep a) as [part [parts Hs]].
    rewrite Hs. reflexivity.
Qed.

Lemma split_on_whole sep s :
  all_chars (fun c => negb (Ascii.eqb c sep)) s = true -> split_on sep s = [s].
Proof.
  induction s as [|c s IH]; intros H; [reflexivity|].
  cbn [all_chars] in H. apply andb_prop in H. destruct H as [Hc Hs].
  cbn [split_on]. apply negb_true_iff in Hc. rewrite Hc, (IH Hs). reflexivity.
Qed.

Lemma dict_get_set k v d : dict_get k (dict_set k v d) = Some v.
Proof.
  induction d as [|[k' v'] d IH]; cbn [dict_set dict_get].
  - rewrite String.eqb_refl. reflexivity.
  - destruct (k' =? k) eqn:E; cbn [dict_get].
    + rewrite String.eqb_refl. reflexivity.
    + rewrite E. exact IH.
Qed.

Lemma dict_get_set_other k k' v d :
  k <> k' -> dict_get k (dict_set k' v d) = dict_get k d.
Proof.
  intros Hne. induction d as [|[k0 v0] d IH]; cbn [dict_set dict_get].
  - assert (E : (k' =? k) = false) by (apply String.eqb_neq; congruence).
    rewrite E. reflexivity.
  - destruct (k0 =? k') eqn:E0; cbn [dict_get].
    + apply String.eqb_eq in E0. subst k0.
      assert (E : (k' =? k) = false) by (apply String.eqb_neq; congruence).
      rewrite E. reflexivity.
    + rewrite IH. reflexivity.
Qed.

Lemma choose_delivery_run m oid ud :
  all_chars (fun c => negb (Ascii.eqb c "_")) m = true ->
  choose_delivery ("delivery_" ++ m ++ "_" ++ oid) ud =
    Some (dict_set "order_id" oid (dict_set "method" m ud),
          mkReply [Lit "Enter your "; Val (JStr m); Lit " details:"] []).
Proof.
  intros Hm. unfold choose_delivery.
  change ("delivery_" ++ m ++ "_" ++ oid)%string
    with ("delivery" ++ String "_" (m ++ String "_" oid))%string.
  rewrite !split_on_app, (split_on_whole "_" m Hm).
  cbn [split_on Ascii.eqb Bool.eqb app]. cbn.
  rewrite join_split. reflexivity.
Qed.

(** X24. The two buttons [ipn] sends with the delivery choice come back to
    [choose_delivery]: for every order identifier, also one with
    underscores in it, the callback data of each button matches the
    pattern of that handler and of no handler registered before it, and
    the handler stores the button's method and exactly that identifier in
    the user's data. *)
Theorem delivery_buttons_reach_choose_delivery (env : Env)
    (chat : option string) (oid : string) (ud : UserData) :
  map (fun b => render (callback_data b))
      (List.concat (reply_markup (delivery_choice chat (JStr oid))))
  = [Some ("delivery_telegram_" ++ oid)%string;
     Some ("delivery_email_" ++ oid)%string]
  /\ forall m, m = "telegram" \/ m = "email" ->
       let data := ("delivery_" ++ m ++ "_" ++ oid)%string in
       dispatch env data = Some ChooseDelivery
       /\ exists ud' shown,
            choose_delivery data ud = Some (ud', shown)
            /\ dict_get "method" ud' = Some m
            /\ dict_get "order_id" ud' = Some oid.
Proof.
  split.
  - cbn. rewrite append_empty. reflexivity.
  - intros m Hm data. subst data. split.
    + destruct Hm; subst m; reflexivity.
    + rewrite choose_delivery_run by (destruct Hm; subst m; reflexivity).
      eexists. eexists. split; [reflexivity|]. split.
      * rewrite dict_get_set_other by discriminate. apply dict_get_set.
      * apply dict_get_set.
Qed.

(** X25. [receive_details] relays what [choose_delivery] stored: with a
    method and an order identifier in the user's data, both not empty, a
    text message is sent on to the operator in the very message
    [/submit-delivery] builds from the same three values, and the user is
    told so; if Telegram refuses, the handler raises and nothing is sent.
    The user's data is left as it is, so the next text is relayed again. *)
Theorem receive_details_relays (env : Env) (details m oid : string)
    (ud : UserData) (w : World) :
  dict_get "method" ud = Some m ->
  dict_get "order_id" ud = Some oid ->
  m <> EmptyString ->
  oid <> EmptyString ->
  let message :=
    mkMessage (ADMIN_CHAT_ID env)
      [Lit "New Order: "; Val (JStr oid); Lit newline; Lit "Delivery: ";
       Val (JStr m); Lit " ("; Val (JStr details); Lit ")"] [] in
  let request :=
    mkRequest None EmptyString
      (Some (JObj [("order_id", JStr oid); ("method", JStr m);
                   ("details", JStr details)])) in
  receive_details env details ud w =
    (if telegram_accepts env message
     then (Ok (Some (mkReply
                       [Lit "Details submitted! You will receive your product soon."]
                       [])),
           mkWorld (store w) (outbox w ++ [message]) (log w) (flashed w))
     else (Raise TelegramError, w))
  /\ outbox (snd (receive_details env details ud w))
     = outbox (snd (submit_delivery env request w)).
Proof.
  intros Hm Ho Hmne Hone message request.
  assert (Hrun : receive_details env details ud w =
            if telegram_accepts env message
            then (Ok (Some (mkReply
                       [Lit "Details submitted! You will receive your product soon."]
                       [])),
                  mkWorld (store w) (outbox w ++ [message]) (log w) (flashed w))
            else (Raise TelegramError, w)).
  { unfold receive_details. rewrite Hm, Ho. unfold given.
    apply String.eqb_neq in Hmne. apply String.eqb_neq in Hone.
    rewrite Hmne, Hone. cbn [negb andb json_of_text].
    unfold bind, send_message, ret. fold message.
    destruct (telegram_accepts env message); reflexivity. }
  split; [exact Hrun|].
  rewrite Hrun.
  rewrite (submit_delivery_sends env request w
             [("order_id", JStr oid); ("method", JStr m); ("details", JStr details)]
             (JStr oid) (JStr m) (JStr details)) by reflexivity.
  fold message. destruct (telegram_accepts env message); reflexivity.
Qed.

Lemma receive_details_relays_witness :
  let ud := [("method", "email"); ("order_id", "B-QX7K2M-090324")] in
  let message :=
    mkMessage (ADMIN_CHAT_ID Demo.env)
      [Lit "New Order: "; Val (JStr "B-QX7K2M-090324"); Lit newline;
       Lit "Delivery: "; Val (JStr "email"); Lit " ("; Val (JStr "me@example.org");
       Lit ")"] [] in
  let request :=
    mkRequest None EmptyString
      (Some (JObj [("order_id", JStr "B-QX7K2M-090324"); ("method", JStr "email");
                   ("details", JStr "me@example.org")])) in
  receive_details Demo.env "me@example.org" ud (Demo.world []) =
    (if telegram_accepts Demo.env message
     then (Ok (Some (mkReply
                       [Lit "Details submitted! You will receive your product soon."]
                       [])),
           mkWorld (store (Demo.world [])) ([] ++ [message]) [] [])
     else (Raise TelegramError, Demo.world []))
  /\ outbox (snd (receive_details Demo.env "me@example.org" ud (Demo.world [])))
     = outbox (snd (submit_delivery Demo.env request (Demo.world []))).
Proof.
  cbv zeta.
  apply (receive_details_relays Demo.env "me@example.org" "email"
           "B-QX7K2M-090324"
           [("method", "email"); ("order_id", "B-QX7K2M-090324")]
           (Demo.world []));
    (reflexivity || discriminate).
Defined.

(** X26. A text message is dropped without a word, and without a message
    to the operator, when the user chose no delivery method before, and
    also when the button they pressed carried an empty order identifier:
    [choose_delivery] stores the empty identifier and [receive_details]
    takes it for none. *)
Theorem receive_details_drops (env : Env) (details m : string) (ud : UserData)
    (w : World) :
  receive_details env details [] w = (Ok None, w)
  /\ ((m = "telegram" \/ m = "email") ->
      exists ud' shown,
        choose_delivery ("delivery_" ++ m ++ "_") ud = Some (ud', shown)
        /\ dict_get "order_id" ud' = Some EmptyString
        /\ receive_details env details ud' w = (Ok None, w)).
Proof.
  split; [reflexivity|].
  intros Hm.
  assert (Hrun : choose_delivery ("delivery_" ++ m ++ "_") ud =
            Some (dict_set "order_id" EmptyString (dict_set "method" m ud),
                  mkReply [Lit "Enter your "; Val (JStr m); Lit " details:"] []))
    by (apply (choose_delivery_run m EmptyString ud);
        destruct Hm; subst m; reflexivity).
  rewrite Hrun.
  eexists. eexists. split; [reflexivity|].
  split; [apply dict_get_set|].
  unfold receive_details. rewrite dict_get_set. cbn [given String.eqb negb].
  rewrite andb_false_r. reflexivity.
Qed.

(** ** The bot: from the catalogue to an order *)

Lemma all_chars_impl (p q : ascii -> bool) s :
  (forall c, p c = true -> q c = true) ->
  all_chars p s = true -> all_chars q s = true.
Proof.
  intros Hpq. induction s as [|c s IH]; intros H; [reflexivity|].
  cbn [all_chars] in *. apply andb_prop in H. destruct H as [Hc Hs].
  rewrite (Hpq c Hc), (IH Hs). reflexivity.
Qed.

Lemma digit_not_underscore c : is_digit c = true -> negb (Ascii.eqb c "_") = true.
Proof.
  intros H. destruct (Ascii.eqb c "_") eqn:E; [|reflexivity].
  apply Ascii.eqb_eq in E. subst c. discriminate H.
Qed.

Lemma upper_not_underscore c : is_upper c = true -> negb (Ascii.eqb c "_") = true.
Proof.
  intros H. destruct (Ascii.eqb c "_") eqn:E; [|reflexivity].
  apply Ascii.eqb_eq in E. subst c. discriminate H.
Qed.

Lemma span_all p s : all_chars p s = true -> span p s = (s, EmptyString).
Proof.
  induction s as [|c s IH]; intros H; [reflexivity|].
  cbn [all_chars] in H. apply andb_prop in H. destruct H as [Hc Hs].
  cbn [span]. rewrite Hc, (IH Hs). reflexivity.
Qed.

Lemma span_decimal_all decimal s :
  all_chars is_digit s = true -> span_decimal decimal s = (s, EmptyString).
Proof.
  induction s as [|c s IH]; intros H; [reflexivity|].
  cbn [all_chars] in H. apply andb_prop in H. destruct H as [Hc Hs].
  cbn [span_decimal]. rewrite Hc, (IH Hs). reflexivity.
Qed.

Lemma span_decimal_stop decimal s c rest :
  all_chars is_digit s = true ->
  is_digit c = false -> (nat_of_ascii c <? 192)%nat = true ->
  span_decimal decimal (s ++ String c rest) = (s, String c rest).
Proof.
  intros Hs Hc Hlow. induction s as [|a s IH]; cbn [append span_decimal].
  - rewrite Hc, Hlow. reflexivity.
  - cbn [all_chars] in Hs. apply andb_prop in Hs. destruct Hs as [Ha Hs].
    rewrite Ha, (IH Hs). reflexivity.
Qed.

Lemma string_of_uint_digits d :
  all_chars is_digit (DecimalString.NilEmpty.string_of_uint d) = true.
Proof. induction d; cbn [DecimalString.NilEmpty.string_of_uint all_chars]; auto. Qed.

(** [str(n)] of an integer that is not negative: digits, and at least one. *)
Lemma str_of_int_digits n :
  (0 <= n)%Z ->
  all_chars is_digit (str_of_int n) = true /\ str_of_int n <> EmptyString.
Proof.
  intros Hn. unfold str_of_int, Z.to_int.
  destruct n as [|p|p]; [split; [reflexivity | discriminate] | | lia].
  cbn [DecimalString.NilZero.string_of_int].
  unfold DecimalString.NilZero.string_of_uint.
  destruct (Pos.to_uint p) eqn:E;
    try (split; [reflexivity | discriminate]);
    (split; [apply string_of_uint_digits | discriminate]).
Qed.

Lemma re_buy_digits env ds :
  all_chars is_digit ds = true -> ds <> EmptyString ->
  re_buy env ("buy_" ++ ds) = true
  /\ split_on "_" ("buy_" ++ ds) = ["buy"; ds].
Proof.
  intros Hd Hne. split.
  - unfold re_buy. cbn [append strip_prefix Ascii.eqb Bool.eqb].
    cbn [strip_prefix]. rewrite (span_decimal_all _ _ Hd).
    apply String.eqb_neq in Hne. rewrite Hne. reflexivity.
  - change ("buy_" ++ ds)%string with ("buy" ++ String "_" ds)%string.
    rewrite split_on_app, (split_on_whole "_" ds); [reflexivity|].
    apply (all_chars_impl is_digit); [apply digit_not_underscore | assumption].
Qed.

Lemma select_product_first k db l1 p l2 :
  tbl_products db = l1 ++ p :: l2 ->
  (forall q, In q l1 -> products.id q <> k) ->
  products.id p = k ->
  Query.select_product k db = Some p.
Proof.
  intros Htbl Hl1 Hid. unfold Query.select_product. rewrite Htbl. clear Htbl.
  induction l1 as [|a l1 IH]; cbn [app find].
  - rewrite Hid, Z.eqb_refl. reflexivity.
  - assert (Ha : (products.id a =? k)%Z = false)
      by (apply Z.eqb_neq, Hl1; left; reflexivity).
    rewrite Ha. apply IH. intros q Hq. apply Hl1. right. assumption.
Qed.

(** X27. [view_products] shows one button for each stored product. For a
    product whose identifier is not negative the button
    carries [buy_<id>], which reaches [buy_product] and no handler
    registered before it; when the storage engine reads the decimal text as
    that integer and no earlier product has the identifier, the handler
    shows that product's name, price and description with one button for
    each coin. *)
Theorem product_buttons_reach_buy_product (env : Env) (w : World)
    (p : products.row) (l1 l2 : list products.row) :
  tbl_products (store w) = l1 ++ p :: l2 ->
  (0 <= products.id p)%Z ->
  let product_id := str_of_int (products.id p) in
  let data := ("buy_" ++ product_id)%string in
  (exists r,
      view_products w = (Ok r, w)
      /\ List.length (keyboard r) = List.length (tbl_products (store w))
      /\ In [CallbackButton
                [Val (json_of_text (products.name p)); Lit " - $";
                 Val (json_of_float (products.price p))]
                [Lit "buy_"; Num (products.id p)]]
            (keyboard r))
  /\ render [Lit "buy_"; Num (products.id p)] = Some data
  /\ dispatch env data = Some BuyProduct
  /\ exists c,
       buy_product env data = Some c
       /\ (coerce_id env (JStr product_id) = Bound (products.id p) ->
           (forall q, In q l1 -> products.id q <> products.id p) ->
           c w =
             (Ok (Some
                    (mkReply
                       [Val (json_of_text (products.name p)); Lit newline;
                        Lit "Price: $"; Val (json_of_float (products.price p));
                        Lit newline;
                        Val (json_of_text (products.description p)); Lit newline;
                        Lit newline; Lit "Choose coin:"]
                       (map (fun coin =>
                               [CallbackButton [Lit coin]
                                  [Lit "confirm_"; Val (JStr product_id); Lit "_";
                                   Val (JStr coin)]])
                            coins))),
              w)).
Proof.
  intros Htbl Hid product_id data.
  destruct (str_of_int_digits (products.id p) Hid) as [Hd Hne].
  destruct (re_buy_digits env product_id Hd Hne) as [Hre Hsplit].
  split; [|split; [|split]].
  - eexists. split; [reflexivity|]. cbn [keyboard]. split.
    + apply length_map.
    + apply (in_map
               (fun q =>
                  [CallbackButton
                     [Val (json_of_text (products.name q)); Lit " - $";
                      Val (json_of_float (products.price q))]
                     [Lit "buy_"; Num (products.id q)]])).
      rewrite Htbl. apply in_or_app. right. left. reflexivity.
  - cbn [render]. fold product_id. rewrite append_empty. reflexivity.
  - unfold dispatch. fold data in Hre. rewrite Hre. reflexivity.
  - unfold buy_product. fold data in Hsplit. rewrite Hsplit.
    eexists. split; [reflexivity|].
    intros Hco Hfirst.
    unfold bind, getconn, putconn, lift, ret, where_param, id_param.
    rewrite Hco. cbn [fst snd].
    rewrite (select_product_first (products.id p) (store w) l1 p l2 Htbl Hfirst
               eq_refl).
    reflexivity.
Qed.

Lemma product_buttons_reach_buy_product_witness :
  let w := Demo.world [] in
  let p := Demo.widget in
  let product_id := str_of_int (products.id p) in
  let data := ("buy_" ++ product_id)%string in
  (exists r,
      view_products w = (Ok r, w)
      /\ List.length (keyboard r) = List.length (tbl_products (store w))
      /\ In [CallbackButton
                [Val (json_of_text (products.name p)); Lit " - $";
                 Val (json_of_float (products.price p))]
                [Lit "buy_"; Num (products.id p)]]
            (keyboard r))
  /\ render [Lit "buy_"; Num (products.id p)] = Some data
  /\ dispatch Demo2.env data = Some BuyProduct
  /\ exists c,
       buy_product Demo2.env data = Some c
       /\ (coerce_id Demo2.env (JStr product_id) = Bound (products.id p) ->
           (forall q, In q (@nil products.row) -> products.id q <> products.id p) ->
           c w =
             (Ok (Some
                    (mkReply
                       [Val (json_of_text (products.name p)); Lit newline;
                        Lit "Price: $"; Val (json_of_float (products.price p));
                        Lit newline;
                        Val (json_of_text (products.description p)); Lit newline;
                        Lit newline; Lit "Choose coin:"]
                       (map (fun coin =>
                               [CallbackButton [Lit coin]
                                  [Lit "confirm_"; Val (JStr product_id); Lit "_";
                                   Val (JStr coin)]])
                            coins))),
              w)).
Proof.
  apply (product_buttons_reach_buy_product Demo2.env (Demo.world []) Demo.widget
           [] [Demo.yacht]).
  - reflexivity.
  - cbn. lia.
Defined.

Lemma re_confirm_parts env ds coin :
  all_chars is_digit ds = true -> ds <> EmptyString ->
  all_chars is_upper coin = true -> coin <> EmptyString ->
  let data := ("confirm_" ++ ds ++ "_" ++ coin)%string in
  dispatch env data = Some ConfirmPurchase
  /\ split_on "_" data = ["confirm"; ds; coin].
Proof.
  intros Hd Hne Hc Hcne data. subst data. split.
  - unfold dispatch.
    assert (Hre : re_confirm env ("confirm_" ++ ds ++ "_" ++ coin) = true).
    { unfold re_confirm. cbn [append strip_prefix Ascii.eqb Bool.eqb].
      cbn [strip_prefix].
      change (ds ++ "_" ++ coin)%string with (ds ++ String "_" coin)%string.
      rewrite (span_decimal_stop _ ds "_" coin Hd eq_refl eq_refl).
      apply String.eqb_neq in Hne. rewrite Hne.
      cbn [negb andb strip_prefix Ascii.eqb Bool.eqb].
      rewrite (span_all _ _ Hc).
      apply String.eqb_neq in Hcne. rewrite Hcne. reflexivity. }
    rewrite Hre. reflexivity.
  - change ("confirm_" ++ ds ++ "_" ++ coin)%string
      with ("confirm" ++ String "_" (ds ++ String "_" coin))%string.
    rewrite !split_on_app, (split_on_whole "_" ds), (split_on_whole "_" coin);
      [reflexivity | |].
    + apply (all_chars_impl is_upper); [apply upper_not_underscore | assumption].
    + apply (all_chars_impl is_digit); [apply digit_not_underscore | assumption].
Qed.

Lemma coins_upper coin :
  In coin coins -> all_chars is_upper coin = true /\ coin <> EmptyString.
Proof.
  intros [H | [H | [H | [H | [H | []]]]]]; subst coin;
    (split; [reflexivity | discriminate]).
Qed.

(** X28. Each coin button [buy_product] shows comes back to
    [confirm_purchase]: for a product identifier made of digits, the data
    [confirm_<id>_<coin>] matches the pattern of that handler and of none
    registered before it, and its unpacking gives back the identifier and
    the coin, so the handler does not fail on it. *)
Theorem coin_buttons_reach_confirm_purchase (env : Env) (product_id coin : string)
    (user_id : Z) (rnd : nat -> nat) (now : datetime) :
  all_chars is_digit product_id = true ->
  product_id <> EmptyString ->
  In coin coins ->
  let data := ("confirm_" ++ product_id ++ "_" ++ coin)%string in
  render [Lit "confirm_"; Val (JStr product_id); Lit "_"; Val (JStr coin)]
    = Some data
  /\ dispatch env data = Some ConfirmPurchase
  /\ split_on "_" data = ["confirm"; product_id; coin]
  /\ confirm_purchase env data user_id rnd now <> None.
Proof.
  intros Hd Hne Hcoin data.
  destruct (coins_upper coin Hcoin) as [Hc Hcne].
  destruct (re_confirm_parts env product_id coin Hd Hne Hc Hcne) as [Hdisp Hsplit].
  fold data in Hdisp, Hsplit.
  split; [|split; [exact Hdisp | split; [exact Hsplit|]]].
  - cbn [render]. rewrite append_empty. reflexivity.
  - unfold confirm_purchase. rewrite Hsplit. discriminate.
Qed.

Lemma coin_buttons_reach_confirm_purchase_witness :
  let data := ("confirm_" ++ "1" ++ "_" ++ "USDT")%string in
  render [Lit "confirm_"; Val (JStr "1"); Lit "_"; Val (JStr "USDT")] = Some data
  /\ dispatch Demo2.env data = Some ConfirmPurchase
  /\ split_on "_" data = ["confirm"; "1"; "USDT"]
  /\ confirm_purchase Demo2.env data 777 Demo.rnd Demo.t0 <> None.
Proof.
  apply (coin_buttons_reach_confirm_purchase Demo2.env "1" "USDT" 777 Demo.rnd
           Demo.t0).
  - reflexivity.
  - discriminate.
  - cbn. tauto.
Defined.

(** What [confirm_purchase] runs on the data of a coin button. *)
Lemma confirm_purchase_run env product_id coin user_id rnd now :
  all_chars is_digit product_id = true ->
  product_id <> EmptyString ->
  In coin coins ->
  confirm_purchase env ("confirm_" ++ product_id ++ "_" ++ coin) user_id rnd now =
  Some
    (bind getconn (fun conn =>
     bind (lift (fetch_price env (JStr product_id) conn)) (fun row =>
     bind (match row with
           | Some price => ret price
           | None => raise TypeError
           end) (fun price =>
     bind (lift match id_param env (JStr product_id) with
                | Bound k =>
                    Ok (Sql.insert_order k price (Some (str_of_int user_id))
                          (generate_order_id "B" rnd now) EmptyString now conn)
                | _ => Raise DatabaseError
                end) (fun conn' =>
     bind (commit conn') (fun _ =>
     bind putconn (fun _ =>
     bind (create_invoice env price (generate_order_id "B" rnd now) coin)
       (fun invoice =>
     bind (lift (get invoice "invoice_url")) (fun payment_url =>
     ret (mkReply [Lit "Order created: ";
                   Val (JStr (generate_order_id "B" rnd now)); Lit newline;
                   Lit "Pay here:"]
                  [[UrlButton [Lit "Pay Now"] payment_url]])))))))))).
Proof.
  intros Hd Hne Hcoin.
  destruct (coins_upper coin Hcoin) as [Hc Hcne].
  destruct (re_confirm_parts env product_id coin Hd Hne Hc Hcne) as [_ Hsplit].
  unfold confirm_purchase. rewrite Hsplit. reflexivity.
Qed.

(** X29. [confirm_purchase] for a product that is not stored raises
    [TypeError] (the subscript of the missing row) before anything is
    written: no order row, no invoice, and the user is shown nothing,
    where [/create-order] answers 404. *)
Theorem confirm_purchase_unknown_product (env : Env) (product_id coin : string)
    (user_id : Z) (rnd : nat -> nat) (now : datetime) (w : World) :
  all_chars is_digit product_id = true ->
  product_id <> EmptyString ->
  In coin coins ->
  fetch_price env (JStr product_id) (store w) = Ok None ->
  exists c,
    confirm_purchase env ("confirm_" ++ product_id ++ "_" ++ coin) user_id rnd now
      = Some c
    /\ c w = (Raise TypeError, w).
Proof.
  intros Hd Hne Hcoin Hnone.
  rewrite (confirm_purchase_run env product_id coin user_id rnd now Hd Hne Hcoin).
  eexists. split; [reflexivity|].
  unfold bind, getconn, lift, raise. cbn [fst snd]. rewrite Hnone. reflexivity.
Qed.

Lemma confirm_purchase_unknown_product_witness :
  exists c,
    confirm_purchase Demo2.env ("confirm_" ++ "5" ++ "_" ++ "BTC") 777 Demo.rnd
      Demo.t0 = Some c
    /\ c (Demo.world []) = (Raise TypeError, Demo.world []).
Proof.
  apply (confirm_purchase_unknown_product Demo2.env "5" "BTC" 777 Demo.rnd Demo.t0
           (Demo.world [])).
  - reflexivity.
  - discriminate.
  - cbn. tauto.
  - reflexivity.
Defined.

(** X30. [confirm_purchase] for a stored product commits an order for it,
    with status [pending], the buyer's user id as decimal text and a [B]
    identifier, before it asks for the invoice. There is no failure path
    after that: when the processor hands back an object, the user is told
    [Order created] with a [Pay Now] button whose address is the
    [invoice_url] of the object, or none when the object has no such
    field; when it hands back anything else or the call raises, the
    handler raises, with the order row in storage. *)
Theorem confirm_purchase_commits_order (env : Env) (product_id coin : string)
    (user_id : Z) (rnd : nat -> nat) (now : datetime) (w : World) (k : Z)
    (price : option pyfloat) :
  all_chars is_digit product_id = true ->
  product_id <> EmptyString ->
  In coin coins ->
  id_param env (JStr product_id) = Bound k ->
  Sql.select_price k (store w) = Some price ->
  let oid := generate_order_id "B" rnd now in
  exists c,
    confirm_purchase env ("confirm_" ++ product_id ++ "_" ++ coin) user_id rnd now
      = Some c
    /\ tbl_orders (store (snd (c w))) =
         tbl_orders (store w) ++
           [orders.mk k price (Some (str_of_int user_id)) oid EmptyString
              "pending" now None]
    /\ (forall d,
          invoice_outcome env price oid coin = Ok (JObj d) ->
          fst (c w) =
            Ok (mkReply [Lit "Order created: "; Val (JStr oid); Lit newline;
                         Lit "Pay here:"]
                  [[UrlButton [Lit "Pay Now"]
                      (match assoc "invoice_url" d with
                       | Some url => url
                       | None => JNull
                       end)]]))
    /\ ((forall d, invoice_outcome env price oid coin <> Ok (JObj d)) ->
        exists e, fst (c w) = Raise e).
Proof.
  intros Hd Hne Hcoin Hid Hprice oid.
  rewrite (confirm_purchase_run env product_id coin user_id rnd now Hd Hne Hcoin).
  fold oid. clearbody oid.
  eexists. split; [reflexivity|].
  unfold bind, getconn, lift, commit, putconn, ret, fetch_price, where_param.
  rewrite Hid. cbn [fst snd]. rewrite Hprice. cbn [fst snd].
  rewrite create_invoice_run. unfold invoice_outcome.
  destruct (nowpayments env _) as [[sc [v|e]]|e]; cbn [reply_json status_code].
  - destruct v as [| b | n | x | s | l | d]; unfold get; cbn [fst snd store];
      (split; [reflexivity | split]);
      try (intros d0 H0; discriminate H0);
      try (intros _; eexists; reflexivity).
    + intros d0 H0. inversion H0; subst. reflexivity.
    + intros H. exfalso. apply (H d). reflexivity.
  - cbn [fst snd store]. split; [reflexivity | split].
    + intros d0 H0. discriminate H0.
    + intros _. eexists. reflexivity.
  - cbn [fst snd store]. split; [reflexivity | split].
    + intros d0 H0. discriminate H0.
    + intros _. eexists. reflexivity.
Qed.

Lemma confirm_purchase_commits_order_witness :
  let oid := generate_order_id "B" Demo.rnd Demo.t0 in
  let price := Some (Fin (999 # 100)) in
  exists c,
    confirm_purchase Demo2.env ("confirm_" ++ "1" ++ "_" ++ "BTC") 777 Demo.rnd
      Demo.t0 = Some c
    /\ tbl_orders (store (snd (c (Demo.world [])))) =
         [] ++
           [orders.mk 1 price (Some (str_of_int 777)) oid EmptyString
              "pending" Demo.t0 None]
    /\ (forall d,
          invoice_outcome Demo2.env price oid "BTC" = Ok (JObj d) ->
          fst (c (Demo.world [])) =
            Ok (mkReply [Lit "Order created: "; Val (JStr oid); Lit newline;
                         Lit "Pay here:"]
                  [[UrlButton [Lit "Pay Now"]
                      (match assoc "invoice_url" d with
                       | Some url => url
                       | None => JNull
                       end)]]))
    /\ ((forall d, invoice_outcome Demo2.env price oid "BTC" <> Ok (JObj d)) ->
        exists e, fst (c (Demo.world [])) = Raise e).
Proof.
  apply (confirm_purchase_commits_order Demo2.env "1" "BTC" 777 Demo.rnd Demo.t0
           (Demo.world []) 1 (Some (Fin (999 # 100)))).
  - reflexivity.
  - discriminate.
  - cbn. tauto.
  - reflexivity.
  - reflexivity.
Defined.
